(** * Tonban API: export/import HS code lookup and search

    A shallow embedding of [tonban_api.py] (a Flask application over a
    read-only SQLite file) and the properties of its four routes.

    Layout of the development:
    - [Py]      the Python built-ins the handlers call on strings
                ([len], [str.strip], [int], [max], [min]);
    - [Sqlite]  the fragment of SQLite the four statements use (NULL and
                TEXT values, [=], [substr], [LIKE] and the length of
                pattern it accepts, [ORDER BY], [LIMIT]);
    - the tables, the four statements, [_query], the envelope and the four
      route handlers, written in a small state monad over the world the
      handlers can observe (the database file, the log, the statements run),
      with the 500 Flask answers when a statement raises;
    - [create_indexes] and the entry point, over that world and the indexes
      of the file;
    - the theorems. *)

From Stdlib Require Import ZArith NArith Lia Ascii String DecimalString.
From stdpp Require Import base option list sorting gmap strings.

Open Scope string_scope.
Open Scope Z_scope.

(** A Python [str] is a sequence of Unicode code points, and so is an SQLite
    TEXT value read character by character: [len], [substr], [LIKE] and [_]
    all count code points, not bytes. Both are a [list N] here, one [N] for
    each code point. *)

(** ** String literals of the source

    The source file is UTF-8; [utf8] reads a literal of this file back into
    its code points, so that a message such as the Japanese ones of [_error]
    can be written as it stands in the source. *)

Fixpoint utf8_from (pending : nat) (acc : N) (s : string) : list N :=
  match s with
  | EmptyString => []
  | String a s' =>
      let b := N_of_ascii a in
      match pending with
      | O =>
          if (b <? 128)%N then b :: utf8_from 0 0 s'
          else if (b <? 224)%N then utf8_from 1 (N.land b 31) s'
          else if (b <? 240)%N then utf8_from 2 (N.land b 15) s'
          else utf8_from 3 (N.land b 7) s'
      | S p =>
          let acc' := (acc * 64 + N.land b 63)%N in
          match p with
          | O => acc' :: utf8_from 0 0 s'
          | S _ => utf8_from p acc' s'
          end
      end
  end.

Definition utf8 (s : string) : list N := utf8_from 0 0 s.

Module Py.

(** [str.isspace] on one character: the code points CPython's
    [_PyUnicode_IsWhitespace] accepts. *)
Definition isspace (c : N) : bool :=
  ((9 <=? c) && (c <=? 13) || (28 <=? c) && (c <=? 32)
   || (c =? 133) || (c =? 160) || (c =? 5760)
   || (8192 <=? c) && (c <=? 8202)
   || (c =? 8232) || (c =? 8233) || (c =? 8239) || (c =? 8287)
   || (c =? 12288))%N.

Fixpoint lstrip (s : list N) : list N :=
  match s with
  | c :: s' => if isspace c then lstrip s' else s
  | [] => []
  end.

Definition rstrip (s : list N) : list N := reverse (lstrip (reverse s)).

(** [s.strip()] *)
Definition strip (s : list N) : list N := rstrip (lstrip s).

(** [len(s)] *)
Definition len (s : list N) : Z := Z.of_nat (length s).

(** *** [int(x)]

    [int] of an [int] is the number itself. [int] of a [str] follows
    CPython: the string is first rewritten to ASCII (Unicode decimal
    digits to ['0'..'9'], Unicode white space to a blank, anything else
    outside ASCII to ['?']), then read as: ASCII white space, an optional
    sign, decimal digits in groups separated by single underscores, ASCII
    white space, end of string. More than 4300 digits are refused. Every
    refusal is a [ValueError], here [None]. *)

(** First code point of each run of ten decimal digits (Unicode 14). *)
Definition decimal_zeros : list N :=
  [ 0x30; 0x660; 0x6f0; 0x7c0; 0x966; 0x9e6; 0xa66; 0xae6; 0xb66; 0xbe6;
    0xc66; 0xce6; 0xd66; 0xde6; 0xe50; 0xed0; 0xf20; 0x1040; 0x1090;
    0x17e0; 0x1810; 0x1946; 0x19d0; 0x1a80; 0x1a90; 0x1b50; 0x1bb0;
    0x1c40; 0x1c50; 0xa620; 0xa8d0; 0xa900; 0xa9d0; 0xa9f0; 0xaa50;
    0xabf0; 0xff10; 0x104a0; 0x10d30; 0x11066; 0x110f0; 0x11136; 0x111d0;
    0x112f0; 0x11450; 0x114d0; 0x11650; 0x116c0; 0x11730; 0x118e0;
    0x11950; 0x11c50; 0x11d50; 0x11da0; 0x16a60; 0x16ac0; 0x16b50;
    0x1d7ce; 0x1d7d8; 0x1d7e2; 0x1d7ec; 0x1d7f6; 0x1e140; 0x1e2f0;
    0x1e950; 0x1fbf0 ]%N.

(** [Py_UNICODE_TODECIMAL] *)
Definition to_decimal (c : N) : option N :=
  match find (fun z => (z <=? c)%N && (c <? z + 10)%N) decimal_zeros with
  | Some z => Some (c - z)%N
  | None => None
  end.

(** [_PyUnicode_TransformDecimalAndSpaceToASCII], one character. *)
Definition to_ascii (c : N) : N :=
  if (c <? 127)%N then c
  else if isspace c then 32%N
  else match to_decimal c with
       | Some d => (48 + d)%N
       | None => 63%N
       end.

(** [Py_ISSPACE] *)
Definition ascii_isspace (c : N) : bool :=
  ((9 <=? c) && (c <=? 13) || (c =? 32))%N.

Definition is_digit (c : N) : bool := ((48 <=? c) && (c <=? 57))%N.
Definition is_underscore (c : N) : bool := (c =? 95)%N.

Fixpoint skip_spaces (s : list N) : list N :=
  match s with
  | c :: s' => if ascii_isspace c then skip_spaces s' else s
  | [] => []
  end.

(** The longest prefix of digits and underscores, and what follows it. *)
Fixpoint span_digits (s : list N) : list N * list N :=
  match s with
  | c :: s' =>
      if is_digit c || is_underscore c
      then let '(d, r) := span_digits s' in (c :: d, r)
      else ([], s)
  | [] => ([], [])
  end.

(** Underscores may only stand between two digits. *)
Fixpoint well_grouped (after_digit : bool) (s : list N) : bool :=
  match s with
  | [] => after_digit
  | c :: s' =>
      if is_underscore c then after_digit && well_grouped false s'
      else well_grouped true s'
  end.

Definition digits_of (s : list N) : list N :=
  filter (fun c => is_digit c = true) s.

Definition decimal_value (ds : list N) : Z :=
  foldl (fun acc c => 10 * acc + Z.of_N (c - 48)) 0 ds.

(** [sys.get_int_max_str_digits()], the default. *)
Definition max_str_digits : nat := 4300.

Definition int_of_str (s : list N) : option Z :=
  let s := skip_spaces (to_ascii <$> s) in
  let '(negative, s) :=
    match s with
    | 43%N :: s' => (false, s')
    | 45%N :: s' => (true, s')
    | _ => (false, s)
    end in
  let '(body, rest) := span_digits s in
  let ds := digits_of body in
  if well_grouped false body
     && bool_decide (skip_spaces rest = [])
     && bool_decide (length ds ≤ max_str_digits)%nat
  then Some (if negative : bool then - decimal_value ds else decimal_value ds)
  else None.

(** The values [request.args.get] can hand to [int]: a [str] of the
    query string, or the [int] given as default. *)
Inductive value :=
| Str (s : list N)
| Int (z : Z).

Definition int (x : value) : option Z :=
  match x with
  | Int z => Some z
  | Str s => int_of_str s
  end.

End Py.

Module Sqlite.

(** The storage classes the tables of this database are read with: the
    schema is not part of the repository, and every column the statements
    name is taken to hold TEXT or NULL. A table that stores a code as
    INTEGER or REAL, which SQLite compares by numeric affinity and returns
    as a number, is not described here; what is said below of the value of
    a column is said through [eq], the [=] of the statements. *)
Inductive value :=
| Null
| Text (t : list N).

#[global] Instance value_eq_dec : EqDecision value.
Proof. solve_decision. Defined.

(** [a = b] under the BINARY collation; a comparison with NULL is NULL,
    which a WHERE or ON clause treats as false. *)
Definition eq (a b : value) : bool :=
  match a, b with
  | Text s, Text t => bool_decide (s = t)
  | _, _ => false
  end.

(** [substr(x, 1, n)]: the first [n] characters. *)
Definition substr1 (x : value) (n : nat) : value :=
  match x with
  | Text s => Text (take n s)
  | Null => Null
  end.

(** *** [x LIKE pattern]

    Without an ESCAPE clause: [%] stands for any run of characters, [_]
    for any one character, every other character for itself, the ASCII
    letters in either case. Both operands are read as NUL-terminated
    strings, so nothing from a U+0000 on takes part in the match. This is
    the value of the operator for a pattern SQLite accepts; it refuses a
    pattern of more than 50,000 bytes, see [too_complex] below. *)

Definition percent : N := 37.
Definition underscore : N := 95.

Definition tolower (c : N) : N :=
  if ((65 <=? c) && (c <=? 90))%N then (c + 32)%N else c.

Fixpoint c_str (s : list N) : list N :=
  match s with
  | c :: s' => if (c =? 0)%N then [] else c :: c_str s'
  | [] => []
  end.

Fixpoint pattern_compare (p : list N) : list N -> bool :=
  match p with
  | [] => fun s => match s with [] => true | _ :: _ => false end
  | c :: p' =>
      if (c =? percent)%N then
        fix any_run (s : list N) : bool :=
          pattern_compare p' s
          || match s with [] => false | _ :: s' => any_run s' end
      else if (c =? underscore)%N then
        fun s => match s with [] => false | _ :: s' => pattern_compare p' s' end
      else
        fun s =>
          match s with
          | [] => false
          | d :: s' => (tolower c =? tolower d)%N && pattern_compare p' s'
          end
  end.

(** [x LIKE pattern]; NULL when either side is NULL, hence false in a
    WHERE clause, also as an operand of OR next to a false operand. *)
Definition like (x pattern : value) : bool :=
  match x, pattern with
  | Text s, Text p => pattern_compare (c_str p) (c_str s)
  | _, _ => false
  end.

(** The length of a text in bytes, as [sqlite3_value_bytes] counts it: the
    UTF-8 encoding of each code point. *)
Definition utf8_bytes (c : N) : N :=
  if (c <? 128)%N then 1%N
  else if (c <? 2048)%N then 2%N
  else if (c <? 65536)%N then 3%N
  else 4%N.

Definition byte_length (s : list N) : N :=
  foldr (fun c n => (utf8_bytes c + n)%N) 0%N s.

(** [SQLITE_MAX_LIKE_PATTERN_LENGTH], the default. *)
Definition max_like_pattern_length : N := 50000.

(** Evaluating [x LIKE pattern] fails with "LIKE or GLOB pattern too
    complex" when the pattern has more bytes than that, whatever [x] is. *)
Definition too_complex (pattern : list N) : bool :=
  (max_like_pattern_length <? byte_length pattern)%N.

(** *** [ORDER BY]

    Ascending order of the BINARY collation: NULL before every text,
    texts by their bytes, which for UTF-8 is the order of their code
    points. *)
Fixpoint text_le (s t : list N) : bool :=
  match s, t with
  | [], _ => true
  | _ :: _, [] => false
  | c :: s', d :: t' => (c <? d)%N || (c =? d)%N && text_le s' t'
  end.

Definition value_le (a b : value) : bool :=
  match a, b with
  | Null, _ => true
  | Text _, Null => false
  | Text s, Text t => text_le s t
  end.

Definition le_by {A} (key : A -> value) : relation A :=
  fun x y => value_le (key x) (key y) = true.

#[global] Instance le_by_dec {A} (key : A -> value) :
  RelDecision (le_by key).
Proof. intros x y. unfold le_by. apply _. Defined.

(** [ORDER BY key]. Which of two rows with the same key comes first is
    left open by SQLite; here it is whatever the merge sort does. *)
Definition order_by {A} (key : A -> value) (rows : list A) : list A :=
  merge_sort (le_by key) rows.

(** [LIMIT n]; a negative [n] is no limit. *)
Definition limit {A} (n : Z) (rows : list A) : list A :=
  if n <? 0 then rows else take (Z.to_nat n) rows.

End Sqlite.


(** * The dataset

    The tables and columns the four statements name. The names of the
    source are Japanese; each field carries the column it stands for. *)

(** The tariff-rate columns of the import table, [関税率_...]. *)
Inductive rate :=
| Kihon | Zantei | WTO | TokkeiGSP | TokkeiLDC
| EPA_SG | EPA_MX | EPA_MY | EPA_CL | EPA_TH | EPA_ID | EPA_BN | EPA_ASEAN
| EPA_PH | EPA_CH | EPA_VN | EPA_IN | EPA_PE | EPA_AU | EPA_MN | EPA_CPTPP
| EPA_EU | EPA_UK | EPA_RCEP1 | EPA_RCEP2 | EPA_RCEP3 | US.

(** The column of a rate, as the table declares it. *)
Definition rate_column (c : rate) : string :=
  match c with
  | Kihon => "関税率_基本"
  | Zantei => "関税率_暫定"
  | WTO => "関税率_WTO"
  | TokkeiGSP => "関税率_特恵GSP"
  | TokkeiLDC => "関税率_特恵LDC"
  | EPA_SG => "関税率_EPA_SG"
  | EPA_MX => "関税率_EPA_MX"
  | EPA_MY => "関税率_EPA_MY"
  | EPA_CL => "関税率_EPA_CL"
  | EPA_TH => "関税率_EPA_TH"
  | EPA_ID => "関税率_EPA_ID"
  | EPA_BN => "関税率_EPA_BN"
  | EPA_ASEAN => "関税率_EPA_ASEAN"
  | EPA_PH => "関税率_EPA_PH"
  | EPA_CH => "関税率_EPA_CH"
  | EPA_VN => "関税率_EPA_VN"
  | EPA_IN => "関税率_EPA_IN"
  | EPA_PE => "関税率_EPA_PE"
  | EPA_AU => "関税率_EPA_AU"
  | EPA_MN => "関税率_EPA_MN"
  | EPA_CPTPP => "関税率_EPA_CPTPP"
  | EPA_EU => "関税率_EPA_EU"
  | EPA_UK => "関税率_EPA_UK"
  | EPA_RCEP1 => "関税率_EPA_RCEP1"
  | EPA_RCEP2 => "関税率_EPA_RCEP2"
  | EPA_RCEP3 => "関税率_EPA_RCEP3"
  | US => "関税率_US"
  end.

(** Table [部番] (part), alias [b]. *)
Record part := {
  bu_ban : Sqlite.value;      (* 部番 *)
  bu_title : Sqlite.value;    (* 部タイトル *)
  bu_chu : Sqlite.value;      (* 部注 *)
}.

(** Table [類番] (chapter), alias [r]. *)
Record chapter := {
  rui_ban : Sqlite.value;     (* 類番 *)
  rui_bu_ban : Sqlite.value;  (* 部番 *)
  rui_title : Sqlite.value;   (* 類タイトル *)
  rui_chu : Sqlite.value;     (* 類注 *)
}.

(** Table [項番] (heading), alias [k]. *)
Record heading := {
  kou_ban : Sqlite.value;     (* 項番 *)
  kou_rui_ban : Sqlite.value; (* 類番 *)
  kou_title : Sqlite.value;   (* 項タイトル *)
}.

(** Table [号番] (subheading), alias [g]. *)
Record subheading := {
  gou_ban : Sqlite.value;     (* 号番 *)
  gou_kou_ban : Sqlite.value; (* 項番 *)
  gou_title : Sqlite.value;   (* 号タイトル *)
}.

(** Tables [輸出統番] and [輸入統番] (tariff entries), alias [te]. The
    statements read the rate columns of the import table only. *)
Record entry := {
  tonban : Sqlite.value;      (* 統番 *)
  hinmei : Sqlite.value;      (* 品名 *)
  tani1 : Sqlite.value;       (* 単位1 *)
  tani2 : Sqlite.value;       (* 単位2 *)
  tahourei : Sqlite.value;    (* 他法令 *)
  kanzeiritsu : rate -> Sqlite.value; (* 関税率_... *)
}.

(** The content of the file [統番.db]. *)
Record database := {
  yushutsu_tonban : list entry;   (* 輸出統番 *)
  yunyu_tonban : list entry;      (* 輸入統番 *)
  gou_table : list subheading;    (* 号番 *)
  kou_table : list heading;       (* 項番 *)
  rui_table : list chapter;       (* 類番 *)
  bu_table : list part;           (* 部番 *)
}.

(** One row of the five-table join, under the aliases of the statements. *)
Record joined := {
  te : entry;
  g : subheading;
  k : heading;
  r : chapter;
  b : part;
}.

(** * SQL templates *)

(** A SELECT list gives each result column its name and the expression it
    selects. *)

Definition SELECT_COMMON : list (string * (joined -> Sqlite.value)) :=
  [ ("部番", fun j => bu_ban (b j));
    ("類番", fun j => rui_ban (r j));
    ("項番", fun j => kou_ban (k j));
    ("号番", fun j => gou_ban (g j));
    ("統番", fun j => tonban (te j));
    ("部タイトル", fun j => bu_title (b j));
    ("類タイトル", fun j => rui_title (r j));
    ("項タイトル", fun j => kou_title (k j));
    ("号タイトル", fun j => gou_title (g j));
    ("部注", fun j => bu_chu (b j));
    ("類注", fun j => rui_chu (r j));
    ("品名", fun j => hinmei (te j));
    ("単位1", fun j => tani1 (te j));
    ("単位2", fun j => tani2 (te j));
    ("他法令", fun j => tahourei (te j)) ].

Definition SELECT_IMPORT_EXTRA : list (string * (joined -> Sqlite.value)) :=
  [ ("関税率_基本", fun j => kanzeiritsu (te j) Kihon);
    ("関税率_暫定", fun j => kanzeiritsu (te j) Zantei);
    ("関税率_WTO", fun j => kanzeiritsu (te j) WTO);
    ("関税率_特恵GSP", fun j => kanzeiritsu (te j) TokkeiGSP);
    ("関税率_特恵LDC", fun j => kanzeiritsu (te j) TokkeiLDC);
    ("関税率_EPA_SG", fun j => kanzeiritsu (te j) EPA_SG);
    ("関税率_EPA_MX", fun j => kanzeiritsu (te j) EPA_MX);
    ("関税率_EPA_MY", fun j => kanzeiritsu (te j) EPA_MY);
    ("関税率_EPA_CL", fun j => kanzeiritsu (te j) EPA_CL);
    ("関税率_EPA_TH", fun j => kanzeiritsu (te j) EPA_TH);
    ("関税率_EPA_ID", fun j => kanzeiritsu (te j) EPA_ID);
    ("関税率_EPA_BN", fun j => kanzeiritsu (te j) EPA_BN);
    ("関税率_EPA_ASEAN", fun j => kanzeiritsu (te j) EPA_ASEAN);
    ("関税率_EPA_PH", fun j => kanzeiritsu (te j) EPA_PH);
    ("関税率_EPA_CH", fun j => kanzeiritsu (te j) EPA_CH);
    ("関税率_EPA_VN", fun j => kanzeiritsu (te j) EPA_VN);
    ("関税率_EPA_IN", fun j => kanzeiritsu (te j) EPA_IN);
    ("関税率_EPA_PE", fun j => kanzeiritsu (te j) EPA_PE);
    ("関税率_EPA_AU", fun j => kanzeiritsu (te j) EPA_AU);
    ("関税率_EPA_MN", fun j => kanzeiritsu (te j) EPA_MN);
    ("関税率_EPA_CPTPP", fun j => kanzeiritsu (te j) EPA_CPTPP);
    ("関税率_EPA_EU", fun j => kanzeiritsu (te j) EPA_EU);
    ("関税率_EPA_UK", fun j => kanzeiritsu (te j) EPA_UK);
    ("関税率_EPA_RCEP1", fun j => kanzeiritsu (te j) EPA_RCEP1);
    ("関税率_EPA_RCEP2", fun j => kanzeiritsu (te j) EPA_RCEP2);
    ("関税率_EPA_RCEP3", fun j => kanzeiritsu (te j) EPA_RCEP3);
    ("関税率_US", fun j => kanzeiritsu (te j) US) ].

(** [JOIN t ON cond]: the rows of [t] that satisfy the condition. *)
Definition JOIN_ON {A} (t : list A) (cond : A -> bool) : list A :=
  List.filter cond t.

(** The join all four statements share:
<<
FROM   <entries> AS te
JOIN   号番 AS g ON g.号番 = substr(te.統番,1,7)
JOIN   項番 AS k ON k.項番 = g.項番
JOIN   類番 AS r ON r.類番 = k.類番
JOIN   部番 AS b ON b.部番 = r.部番
>>
    as nested loops with [te] outermost. *)
Definition FROM_JOIN (entries : list entry) (db : database) : list joined :=
  te ← entries;
  g ← JOIN_ON (gou_table db)
        (fun g => Sqlite.eq (gou_ban g) (Sqlite.substr1 (tonban te) 7));
  k ← JOIN_ON (kou_table db) (fun k => Sqlite.eq (kou_ban k) (gou_kou_ban g));
  r ← JOIN_ON (rui_table db) (fun r => Sqlite.eq (rui_ban r) (kou_rui_ban k));
  b ← JOIN_ON (bu_table db) (fun b => Sqlite.eq (bu_ban b) (rui_bu_ban r));
  [ {| te := te; g := g; k := k; r := r; b := b |} ].

(** [WHERE te.統番 = :code] *)
Definition WHERE_code (code : list N) (j : joined) : bool :=
  Sqlite.eq (tonban (te j)) (Sqlite.Text code).

(** [WHERE te.品名 LIKE :kw OR b.部タイトル LIKE :kw OR r.類タイトル LIKE :kw
     OR k.項タイトル LIKE :kw OR g.号タイトル LIKE :kw] *)
Definition WHERE_name (kw : list N) (j : joined) : bool :=
  Sqlite.like (hinmei (te j)) (Sqlite.Text kw)
  || Sqlite.like (bu_title (b j)) (Sqlite.Text kw)
  || Sqlite.like (rui_title (r j)) (Sqlite.Text kw)
  || Sqlite.like (kou_title (k j)) (Sqlite.Text kw)
  || Sqlite.like (gou_title (g j)) (Sqlite.Text kw).

(** [ORDER BY te.統番] *)
Definition ORDER_BY_tonban (rows : list joined) : list joined :=
  Sqlite.order_by (fun j => tonban (te j)) rows.

(** A result row as [_query] returns it: [dict(r)] of an [sqlite3.Row],
    from column name to value. *)
Definition to_dict (columns : list (string * (joined -> Sqlite.value)))
    (j : joined) : gmap string Sqlite.value :=
  list_to_map ((fun c => (c.1, c.2 j)) <$> columns).

Definition SELECT (columns : list (string * (joined -> Sqlite.value)))
    (rows : list joined) : list (gmap string Sqlite.value) :=
  to_dict columns <$> rows.

(** The four statements, each with the values its named parameters
    ([:code], or [:kw] and [:limit]) are bound to. *)
Inductive statement :=
| SQL_EXPORT_CODE (code : list N)
| SQL_EXPORT_NAME (kw : list N) (limit : Z)
| SQL_IMPORT_CODE (code : list N)
| SQL_IMPORT_NAME (kw : list N) (limit : Z).

(** [conn.execute(sql, params).fetchall()], each row as a dict. *)
Definition execute (db : database) (sql : statement)
    : list (gmap string Sqlite.value) :=
  match sql with
  | SQL_EXPORT_CODE code =>
      SELECT SELECT_COMMON
        (List.filter (WHERE_code code) (FROM_JOIN (yushutsu_tonban db) db))
  | SQL_EXPORT_NAME kw limit =>
      SELECT SELECT_COMMON
        (Sqlite.limit limit
           (ORDER_BY_tonban
              (List.filter (WHERE_name kw) (FROM_JOIN (yushutsu_tonban db) db))))
  | SQL_IMPORT_CODE code =>
      SELECT (SELECT_COMMON ++ SELECT_IMPORT_EXTRA)
        (List.filter (WHERE_code code) (FROM_JOIN (yunyu_tonban db) db))
  | SQL_IMPORT_NAME kw limit =>
      SELECT (SELECT_COMMON ++ SELECT_IMPORT_EXTRA)
        (Sqlite.limit limit
           (ORDER_BY_tonban
              (List.filter (WHERE_name kw) (FROM_JOIN (yunyu_tonban db) db))))
  end.

(** [conn.execute(sql, params)] and [cur.fetchall()] raise
    [sqlite3.OperationalError] when evaluating the statement fails. A search
    statement evaluates its WHERE clause, and so a LIKE, on every row of the
    join: it fails when the join has a row and the pattern is too long. A
    lookup statement has no LIKE. [execute] above gives the rows of a
    statement that does not fail. *)
Definition execute_raises (db : database) (sql : statement) : bool :=
  match sql with
  | SQL_EXPORT_CODE _ | SQL_IMPORT_CODE _ => false
  | SQL_EXPORT_NAME kw _ =>
      Sqlite.too_complex kw
      && bool_decide (FROM_JOIN (yushutsu_tonban db) db ≠ [])
  | SQL_IMPORT_NAME kw _ =>
      Sqlite.too_complex kw
      && bool_decide (FROM_JOIN (yunyu_tonban db) db ≠ [])
  end.

(** * The world of a request

    What a handler can read or change outside its own variables: whether
    the file [DB_FILE] exists and what it holds, the records written through
    [logger], and the statements handed to [conn.execute]. *)

Record world := {
  DB_FILE : option database;      (* [None]: [DB_FILE.exists()] is false *)
  logged : list (string * list N); (* level and message *)
  executed : list statement;
}.

(** Computations over the world. *)
Definition M (A : Type) : Type := world -> A * world.

Definition ret {A} (a : A) : M A := fun w => (a, w).

Definition bind {A B} (m : M A) (f : A -> M B) : M B :=
  fun w => let '(a, w') := m w in f a w'.

Notation "'let*' x ':=' m 'in' f" := (bind m (fun x => f))
  (at level 10, x name, m at level 100, f at level 200).

(** [logger.error(msg)] *)
Definition logger_error (msg : list N) : M unit :=
  fun w => (tt, {| DB_FILE := DB_FILE w;
                   logged := logged w ++ [("ERROR", msg)];
                   executed := executed w |}).

(** [sqlite3.connect(DB_FILE)], [conn.execute(sql, params)],
    [cur.fetchall()], [conn.close()] and [dict(r)] for each row, on a file
    that exists and for a statement that does not raise. *)
Definition connect_execute (db : database) (sql : statement)
    : M (list (gmap string Sqlite.value)) :=
  fun w => (execute db sql,
            {| DB_FILE := DB_FILE w;
               logged := logged w;
               executed := executed w ++ [sql] |}).

(** * DB utility *)

(** What [_query] returns and does when it returns. It raises what
    [conn.execute] raises, see [execute_raises]; the view functions call it
    through [query_then] below, which has both cases. *)
Definition _query (sql : statement) : M (list (gmap string Sqlite.value)) :=
  fun w =>
    match DB_FILE w with
    | None =>
        (let* _ := logger_error (utf8 "DB ファイルが見つかりません: 統番.db") in
         ret []) w
    | Some db => connect_execute db sql w
    end.

(** * Common response wrapper *)

(** The values of the JSON object [jsonify] is given. *)
Inductive json :=
| JBool (v : bool)
| JString (s : list N)
| JRows (rows : list (gmap string Sqlite.value)).

(** What a view function returns: the body handed to [jsonify] and the
    status code (200 unless one is given). *)
Record response := {
  status : Z;
  body : gmap string json;
}.

Definition _success (data : list (gmap string Sqlite.value)) : response :=
  {| status := 200;
     body := {[ "resultCd" := JBool true; "data" := JRows data ]} |}.

(** [status] is 400 where the source leaves it out. *)
Definition _error (msg : list N) (status : Z) : response :=
  {| status := status;
     body := {[ "resultCd" := JBool false; "message" := JString msg ]} |}.

(** What Flask answers for a view function that ends in an exception:
    status 500 and an HTML page. There is no JSON object in it, so its body
    has none of the keys of the envelope. (Flask also logs the exception;
    that record is not one this module writes and is left out of
    [logged].) *)
Definition InternalServerError : response :=
  {| status := 500; body := ∅ |}.

(** [data = _query(sql, params)] in a view function, and the rest of the
    view. No view catches what [_query] raises: when [conn.execute] raises,
    on a file that exists, the view ends there, with the statement handed
    to [conn.execute], and Flask answers for it. Otherwise the view goes on
    with the rows [_query] returns. *)
Definition query_then (sql : statement)
    (rest : list (gmap string Sqlite.value) -> M response) : M response :=
  fun w =>
    match DB_FILE w with
    | Some db =>
        if execute_raises db sql
        then (InternalServerError,
              {| DB_FILE := DB_FILE w;
                 logged := logged w;
                 executed := executed w ++ [sql] |})
        else bind (_query sql) rest w
    | None => bind (_query sql) rest w
    end.

(** * Routes *)

(** [request.args]: the parameters of the query string, in order. *)
Record request := {
  args : list (string * list N);
}.

(** [request.args.get(key)]: the first value of [key], if any. *)
Definition args_get (key : string) (request : request) : option (list N) :=
  snd <$> List.find (fun p => bool_decide (p.1 = key)) (args request).

(** [max(1, min(limit, 1000))] *)
Definition clamp (limit : Z) : Z := Z.max 1 (Z.min limit 1000).

(** ** Export *)

Definition export_by_code (request : request) : M response :=
  let code := Py.strip (default [] (args_get "code" request)) in
  if bool_decide (code = []) then
    ret (_error (utf8 "code パラメータを指定してください") 400)
  else
    query_then (SQL_EXPORT_CODE code) (fun data =>
    if bool_decide (data = []) then
      ret (_error (utf8 "統番 " ++ code ++ utf8 " が見つかりません") 404)
    else
      ret (_success data)).

Definition export_by_name (request : request) : M response :=
  let q := Py.strip (default [] (args_get "q" request)) in
  if Py.len q <? 2 then
    ret (_error (utf8 "q パラメータを2文字以上で指定してください") 400)
  else
    match Py.int (default (Py.Int 100) (Py.Str <$> args_get "limit" request)) with
    | None =>
        ret (_error (utf8 "limit パラメータは整数で指定してください") 400)
    | Some limit =>
        let limit := clamp limit in
        query_then (SQL_EXPORT_NAME (utf8 "%" ++ q ++ utf8 "%") limit)
          (fun data => ret (_success data))
    end.

(** ** Import *)

Definition import_by_code (request : request) : M response :=
  let code := Py.strip (default [] (args_get "code" request)) in
  if bool_decide (code = []) then
    ret (_error (utf8 "code パラメータを指定してください") 400)
  else
    query_then (SQL_IMPORT_CODE code) (fun data =>
    if bool_decide (data = []) then
      ret (_error (utf8 "統番 " ++ code ++ utf8 " が見つかりません") 404)
    else
      ret (_success data)).

Definition import_by_name (request : request) : M response :=
  let q := Py.strip (default [] (args_get "q" request)) in
  if Py.len q <? 2 then
    ret (_error (utf8 "q パラメータを2文字以上で指定してください") 400)
  else
    match Py.int (default (Py.Int 100) (Py.Str <$> args_get "limit" request)) with
    | None =>
        ret (_error (utf8 "limit パラメータは整数で指定してください") 400)
    | Some limit =>
        let limit := clamp limit in
        query_then (SQL_IMPORT_NAME (utf8 "%" ++ q ++ utf8 "%") limit)
          (fun data => ret (_success data))
    end.

(** [app.route]: the URL rules and their view functions. *)
Definition url_map : list (string * (request -> M response)) :=
  [ ("/tonban/export", export_by_code);
    ("/tonban/export/search", export_by_name);
    ("/tonban/import", import_by_code);
    ("/tonban/import/search", import_by_name) ].

(** * Index creation utility (called once, at start-up) *)

(** [CREATE INDEX IF NOT EXISTS name ON table(column);] *)
Record index_sql := {
  index_name : string;
  index_table : string;
  index_column : string;
}.

(** What the start-up code can read or change: the world of the requests,
    the indexes of the file [DB_FILE] (by name, with the table and the
    column each is on) and the index statements handed to [conn.execute].
    No SELECT result depends on an index, which is why the world of a
    request leaves them out. *)
Record startup := {
  the_world : world;
  indexes : gmap string (string * string);
  index_executed : list index_sql;
}.

(** [logger.warning(msg)], [logger.info(msg)]: one more record. *)
Definition log_record (level : string) (msg : list N) (st : startup) : startup :=
  {| the_world :=
       {| DB_FILE := DB_FILE (the_world st);
          logged := logged (the_world st) ++ [(level, msg)];
          executed := executed (the_world st) |};
     indexes := indexes st;
     index_executed := index_executed st |}.

(** [conn.execute(s)] for an index statement: with IF NOT EXISTS, a name
    already in use is left as it is. *)
Definition conn_execute_index (st : startup) (s : index_sql) : startup :=
  {| the_world := the_world st;
     indexes :=
       match indexes st !! index_name s with
       | Some _ => indexes st
       | None => <[index_name s := (index_table s, index_column s)]> (indexes st)
       end;
     index_executed := index_executed st ++ [s] |}.

Definition idx_sqls : list index_sql :=
  [ {| index_name := "idx_export_code"; index_table := "輸出統番";
       index_column := "統番" |};
    {| index_name := "idx_export_name"; index_table := "輸出統番";
       index_column := "品名" |};
    {| index_name := "idx_import_code"; index_table := "輸入統番";
       index_column := "統番" |};
    {| index_name := "idx_import_name"; index_table := "輸入統番";
       index_column := "品名" |} ].

Definition create_indexes (st : startup) : startup :=
  match DB_FILE (the_world st) with
  | None =>
      log_record "WARNING"
        (utf8 "DB ファイル 統番.db が見つかりません。インデックス作成をスキップ") st
  | Some _ =>
      let st := foldl conn_execute_index st idx_sqls in
      log_record "INFO" (utf8 "インデックス作成完了") st
  end.

(** * Entry point *)

(** [str(n)] of an [int], as an f-string formats it. *)
Definition str_of_int (n : Z) : list N :=
  utf8 (NilZero.string_of_int (Z.to_int n)).

(** The block under [if __name__ == "__main__"], given [os.environ]: the
    port it settles on, or [None] when [int] raises (nothing catches it). *)
Definition main (environ : gmap string (list N)) (st : startup)
    : option Z * startup :=
  let st := create_indexes st in
  let st := log_record "INFO" (utf8 "インデックス作成完了") st in
  match Py.int (default (Py.Int 10010) (Py.Str <$> environ !! "PORT")) with
  | None => (None, st)
  | Some port =>
      (Some port,
       log_record "INFO"
         (utf8 "Tonban API サーバー起動: http://0.0.0.0:" ++ str_of_int port) st)
  end.

(** * Vocabulary of the properties *)

(** The two directions; each has a code-lookup route and a search route. *)
Inductive direction := Export | Import.

Definition by_code (d : direction) : request -> M response :=
  match d with Export => export_by_code | Import => import_by_code end.

Definition by_name (d : direction) : request -> M response :=
  match d with Export => export_by_name | Import => import_by_name end.

Definition SQL_CODE (d : direction) : list N -> statement :=
  match d with Export => SQL_EXPORT_CODE | Import => SQL_IMPORT_CODE end.

Definition SQL_NAME (d : direction) : list N -> Z -> statement :=
  match d with Export => SQL_EXPORT_NAME | Import => SQL_IMPORT_NAME end.

(** The entry table a direction reads. *)
Definition entries_of (d : direction) (db : database) : list entry :=
  match d with Export => yushutsu_tonban db | Import => yunyu_tonban db end.

(** The SELECT list of a direction's two statements. *)
Definition select_list (d : direction) : list (string * (joined -> Sqlite.value)) :=
  match d with
  | Export => SELECT_COMMON
  | Import => SELECT_COMMON ++ SELECT_IMPORT_EXTRA
  end.

Definition all_rates : list rate :=
  [ Kihon; Zantei; WTO; TokkeiGSP; TokkeiLDC; EPA_SG; EPA_MX; EPA_MY; EPA_CL;
    EPA_TH; EPA_ID; EPA_BN; EPA_ASEAN; EPA_PH; EPA_CH; EPA_VN; EPA_IN; EPA_PE;
    EPA_AU; EPA_MN; EPA_CPTPP; EPA_EU; EPA_UK; EPA_RCEP1; EPA_RCEP2; EPA_RCEP3;
    US ].

Definition code_path (d : direction) : string :=
  match d with Export => "/tonban/export" | Import => "/tonban/import" end.

Definition search_path (d : direction) : string :=
  match d with
  | Export => "/tonban/export/search"
  | Import => "/tonban/import/search"
  end.

(** The [code] and [q] parameters after [.strip()]. *)
Definition code_of (request : request) : list N :=
  Py.strip (default [] (args_get "code" request)).

Definition keyword_of (request : request) : list N :=
  Py.strip (default [] (args_get "q" request)).

(** A string of white space only (the empty string included). *)
Definition blank (s : list N) : Prop := Forall (fun c => Py.isspace c = true) s.


Definition failure_envelope (resp : response) : Prop :=
  body resp !! "resultCd" = Some (JBool false)
  ∧ (∃ msg, body resp !! "message" = Some (JString msg))
  ∧ body resp !! "data" = None.


(** The rows under the [data] key, none when the key is missing. *)
Definition rows_of (resp : response) : list (gmap string Sqlite.value) :=
  match body resp !! "data" with
  | Some (JRows rows) => rows
  | _ => []
  end.

(** The leaf classification code of a result row, its [統番]. *)
Definition leaf_code (row : gmap string Sqlite.value) : Sqlite.value :=
  default Sqlite.Null (row !! "統番").


(** The five text columns the search looks into. *)
Definition searched_columns : list string :=
  [ "品名"; "部タイトル"; "類タイトル"; "項タイトル"; "号タイトル" ].

(** [q in t] of Python: [q] occurs in [t] as a contiguous run. *)
Definition substring (q t : list N) : Prop :=
  ∃ pre post : list N, t = (pre ++ q ++ post)%list.

Fixpoint starts_with (q t : list N) : bool :=
  match q, t with
  | [], _ => true
  | _ :: _, [] => false
  | c :: q', d :: t' => (c =? d)%N && starts_with q' t'
  end.

Fixpoint contains (q t : list N) : bool :=
  starts_with q t || match t with [] => false | _ :: t' => contains q t' end.

(** A row holds the keyword literally in one of the five columns. *)
Definition holds_keyword (q : list N) (row : gmap string Sqlite.value) : Prop :=
  ∃ col t, col ∈ searched_columns ∧ row !! col = Some (Sqlite.Text t)
           ∧ substring q t.

(** The same as a test that computes. *)
Definition holds_keyword_b (q : list N) (row : gmap string Sqlite.value) : bool :=
  existsb (fun col => match row !! col with
                      | Some (Sqlite.Text t) => contains q t
                      | _ => false
                      end)
          searched_columns.




(** The limit a search request binds: the default, or the clamped [limit]
    parameter; [None] when [int] raises. *)
Definition limit_of (request : request) : option Z :=
  clamp <$> Py.int (default (Py.Int 100) (Py.Str <$> args_get "limit" request)).

(** The outcome of a search once its parameters are accepted. *)
Definition search (d : direction) (q : list N) (limit : Z) : M response :=
  query_then (SQL_NAME d (utf8 "%" ++ q ++ utf8 "%") limit)
    (fun data => ret (_success data)).

(** The LIKE pattern a search request binds. *)
Definition pattern_of (request : request) : list N :=
  utf8 "%" ++ keyword_of request ++ utf8 "%".

(** The search statement of a direction raises in this world: the dataset
    exists, its join has a row, and the pattern is too long for LIKE. *)
Definition search_raises (d : direction) (pattern : list N) (w : world) : bool :=
  match DB_FILE w with
  | Some db =>
      Sqlite.too_complex pattern
      && bool_decide (FROM_JOIN (entries_of d db) db ≠ [])
  | None => false
  end.

(** ** A small dataset for the examples *)

Definition T (s : string) : Sqlite.value := Sqlite.Text (utf8 s).

Definition sample_rates (c : rate) : Sqlite.value :=
  match c with
  | Kihon => T "無税"
  | WTO => T "(無税)"
  | _ => Sqlite.Null
  end.

Definition sample_entries : list entry :=
  [ {| tonban := T "0101.29-000"; hinmei := T "その他のもの";
       tani1 := Sqlite.Null; tani2 := T "NO"; tahourei := Sqlite.Null;
       kanzeiritsu := sample_rates |};
    {| tonban := T "0101.21-000"; hinmei := T "第1種の馬";
       tani1 := Sqlite.Null; tani2 := T "NO"; tahourei := Sqlite.Null;
       kanzeiritsu := sample_rates |} ].

Definition sample_db : database :=
  {| yushutsu_tonban := sample_entries;
     yunyu_tonban := sample_entries;
     gou_table :=
       [ {| gou_ban := T "0101.21"; gou_kou_ban := T "01.01";
            gou_title := T "純粋種の繁殖用のもの" |};
         {| gou_ban := T "0101.29"; gou_kou_ban := T "01.01";
            gou_title := T "その他のもの" |} ];
     kou_table :=
       [ {| kou_ban := T "01.01"; kou_rui_ban := T "01";
            kou_title := T "馬、ろ馬、ら馬及びヒニー（生きているものに限る。）" |} ];
     rui_table :=
       [ {| rui_ban := T "01"; rui_bu_ban := T "1";
            rui_title := T "動物（生きているものに限る。）";
            rui_chu := Sqlite.Null |} ];
     bu_table :=
       [ {| bu_ban := T "1"; bu_title := T "動物（生きているものに限る。）及び動物性生産品";
            bu_chu := Sqlite.Null |} ] |}.

Definition sample_world : world :=
  {| DB_FILE := Some sample_db; logged := []; executed := [] |}.

Definition no_db_world : world :=
  {| DB_FILE := None; logged := []; executed := [] |}.

Definition GET (params : list (string * string)) : request :=
  {| args := (fun p => (p.1, utf8 p.2)) <$> params |}.

(** ** Vocabulary of the further properties *)

(** The ancestors one entry is joined with: the inner loops of [FROM_JOIN]. *)
Definition ancestry (db : database) (te : entry) : list joined :=
  g ← JOIN_ON (gou_table db)
        (fun g => Sqlite.eq (gou_ban g) (Sqlite.substr1 (tonban te) 7));
  k ← JOIN_ON (kou_table db) (fun k => Sqlite.eq (kou_ban k) (gou_kou_ban g));
  r ← JOIN_ON (rui_table db) (fun r => Sqlite.eq (rui_ban r) (kou_rui_ban k));
  b ← JOIN_ON (bu_table db) (fun b => Sqlite.eq (bu_ban b) (rui_bu_ban r));
  [ {| te := te; g := g; k := k; r := r; b := b |} ].

(** The values of the five searched columns of a joined row. *)
Definition searched_values (j : joined) : list Sqlite.value :=
  [ hinmei (te j); bu_title (b j); rui_title (r j); kou_title (k j);
    gou_title (g j) ].

(** No two rows of a table have equal keys (rows with a NULL key aside, as
    for a UNIQUE column). *)
Definition unique_key {A} (key : A -> Sqlite.value) (table : list A) : Prop :=
  ∀ i1 i2 x1 x2,
    table !! i1 = Some x1 → table !! i2 = Some x2 →
    Sqlite.eq (key x1) (key x2) = true → i1 = i2.

(** The keys the join relies on are unique in their tables. *)
Definition unique_keys (d : direction) (db : database) : Prop :=
  unique_key tonban (entries_of d db)
  ∧ unique_key gou_ban (gou_table db)
  ∧ unique_key kou_ban (kou_table db)
  ∧ unique_key rui_ban (rui_table db)
  ∧ unique_key bu_ban (bu_table db).

(** One of the five searched columns of a joined row is not NULL. *)
Definition has_text (j : joined) : bool :=
  existsb (fun v => match v with Sqlite.Text _ => true | Sqlite.Null => false end)
          (searched_values j).

(** A text without U+0000. *)
Definition nul_free (s : list N) : Prop := Forall (fun c => c ≠ 0%N) s.

(** The rows of the join a keyword pattern selects. *)
Definition matching (d : direction) (db : database) (kw : list N) : list joined :=
  List.filter (WHERE_name kw) (FROM_JOIN (entries_of d db) db).

(** The request of a search with the given [q] and [limit] parameters. *)
Definition search_request (q limit : list N) : request :=
  {| args := [("q", q); ("limit", limit)] |}.

(** The effects every route is held to, from the world [w] it starts in:
    the dataset stays; at most one statement is executed, and none without a
    dataset; at most one record is logged, an ERROR, and none with a
    dataset; a 400 leaves the world as it was. *)
Definition modest (w : world) (outcome : response * world) : Prop :=
  DB_FILE outcome.2 = DB_FILE w
  ∧ (∃ ran, executed outcome.2 = (executed w ++ ran)%list
            ∧ (length ran ≤ 1)%nat
            ∧ (DB_FILE w = None → ran = []))
  ∧ (∃ records, logged outcome.2 = (logged w ++ records)%list
                ∧ (length records ≤ 1)%nat
                ∧ Forall (fun record => record.1 = "ERROR") records
                ∧ (is_Some (DB_FILE w) → records = []))
  ∧ (status outcome.1 = 400 → outcome.2 = w).

Definition sample_startup : startup :=
  {| the_world := sample_world; indexes := ∅; index_executed := [] |}.

Definition no_db_startup : startup :=
  {| the_world := no_db_world; indexes := ∅; index_executed := [] |}.

(** * Properties *)

(** ** The built-ins on sample values *)

Example utf8_tonban : utf8 "統番" = [32113; 30058]%N.
Proof. reflexivity. Qed.

Example strip_unicode_space : Py.strip (utf8 "  a b　") = utf8 "a b".
Proof. reflexivity. Qed.

Example int_signed_padded : Py.int_of_str (utf8 "  -0012 ") = Some (-12).
Proof. reflexivity. Qed.

Example int_underscore : Py.int_of_str (utf8 "1_0") = Some 10.
Proof. reflexivity. Qed.

Example int_bad_underscores :
  Py.int_of_str <$> [utf8 "1__0"; utf8 "_1"; utf8 "1_"] = [None; None; None].
Proof. reflexivity. Qed.

Example int_fullwidth_digits : Py.int_of_str (utf8 "１２") = Some 12.
Proof. reflexivity. Qed.

Example int_not_a_number :
  Py.int_of_str <$> [utf8 "abc"; utf8 ""; utf8 "+"; utf8 "- 5"; utf8 "5.0";
                     utf8 "1e3"; utf8 "0x10"; [53; 0]%N; [28; 53]%N]
  = [None; None; None; None; None; None; None; None; None].
Proof. reflexivity. Qed.

Example int_4300_digits :
  is_Some (Py.int_of_str (replicate 4300 49%N))
  ∧ Py.int_of_str (replicate 4301 49%N) = None.
Proof. split; vm_compute; eauto. Qed.

Example like_wildcards :
  Sqlite.pattern_compare (utf8 "%1_%") <$> [utf8 "a12"; utf8 "a1"; utf8 "1_"]
  = [true; false; true].
Proof. reflexivity. Qed.

Example like_ascii_case :
  Sqlite.pattern_compare (utf8 "%AB%") (utf8 "xabx") = true.
Proof. reflexivity. Qed.

Example order_by_binary :
  Sqlite.order_by Sqlite.Text [utf8 "b"; utf8 "a"; utf8 "ab"]
  = [utf8 "a"; utf8 "ab"; utf8 "b"].
Proof. reflexivity. Qed.

Example sample_search_leaf_codes :
  leaf_code <$>
    rows_of (export_by_name (GET [("q", "動物"); ("limit", "5")]) sample_world).1
  = [T "0101.21-000"; T "0101.29-000"].
Proof. vm_compute. reflexivity. Qed.

(** ** Python strings *)

Section Strip.

Lemma lstrip_nil_iff s : Py.lstrip s = [] ↔ blank s.
Proof.
  unfold blank. induction s as [|c s IH]; simpl.
  - split; [constructor | done].
  - destruct (Py.isspace c) eqn:Hc.
    + rewrite IH. split; [by constructor | by inversion 1].
    + split; [done | inversion 1; congruence].
Qed.

Lemma lstrip_blank_iff s : blank (Py.lstrip s) ↔ blank s.
Proof.
  unfold blank. induction s as [|c s IH]; simpl; [done|].
  destruct (Py.isspace c) eqn:Hc; [|done].
  rewrite IH. split; [by constructor | by inversion 1].
Qed.

Lemma rstrip_nil_iff s : Py.rstrip s = [] ↔ blank s.
Proof.
  unfold Py.rstrip.
  rewrite <- (reverse_involutive []), (inj_iff reverse), reverse_nil.
  rewrite lstrip_nil_iff. unfold blank. by rewrite Forall_reverse.
Qed.

Lemma strip_nil_iff s : Py.strip s = [] ↔ blank s.
Proof. unfold Py.strip. by rewrite rstrip_nil_iff, lstrip_blank_iff. Qed.

Lemma clamp_range n : 1 ≤ clamp n ≤ 1000.
Proof. unfold clamp. lia. Qed.

End Strip.

(** ** The envelope *)

Section Envelope.


Lemma error_is_envelope msg st : failure_envelope (_error msg st).
Proof. unfold failure_envelope, _error; simpl. split_and!; eauto. Qed.

Lemma success_data data : body (_success data) !! "data" = Some (JRows data).
Proof. reflexivity. Qed.

Lemma rows_of_success data : rows_of (_success data) = data.
Proof. reflexivity. Qed.

Lemma rows_of_error msg st : rows_of (_error msg st) = [].
Proof. reflexivity. Qed.

Lemma rows_of_internal_server_error : rows_of InternalServerError = [].
Proof. reflexivity. Qed.




End Envelope.

(** ** What each handler computes *)

Section Handlers.

Variables (d : direction) (request : request) (w : world).

Lemma query_no_db sql :
  DB_FILE w = None →
  _query sql w =
    ([], {| DB_FILE := None;
            logged := logged w
                      ++ [("ERROR", utf8 "DB ファイルが見つかりません: 統番.db")];
            executed := executed w |}).
Proof. intros H. unfold _query. rewrite H. unfold bind, logger_error, ret. by rewrite H. Qed.

Lemma query_db db sql :
  DB_FILE w = Some db →
  _query sql w =
    (execute db sql,
     {| DB_FILE := Some db; logged := logged w;
        executed := executed w ++ [sql] |}).
Proof. intros H. unfold _query. rewrite H. unfold connect_execute. by rewrite H. Qed.

Lemma query_keeps_db sql : DB_FILE (_query sql w).2 = DB_FILE w.
Proof.
  destruct (DB_FILE w) as [db|] eqn:H.
  - by rewrite (query_db db).
  - by rewrite query_no_db.
Qed.

(** A statement that never raises: the view goes on with its rows. *)
Lemma query_then_accepted sql rest :
  (∀ db, execute_raises db sql = false) →
  query_then sql rest w = bind (_query sql) rest w.
Proof.
  intros Hno. unfold query_then.
  destruct (DB_FILE w) as [db|]; [by rewrite Hno | done].
Qed.

Lemma by_code_blank :
  code_of request = [] →
  by_code d request w =
    (_error (utf8 "code パラメータを指定してください") 400, w).
Proof.
  intros H. destruct d; unfold by_code, export_by_code, import_by_code;
    fold (code_of request); rewrite H; reflexivity.
Qed.

Lemma by_code_run :
  code_of request ≠ [] →
  by_code d request w =
    (let rows := (_query (SQL_CODE d (code_of request)) w).1 in
     if bool_decide (rows = [])
     then _error (utf8 "統番 " ++ code_of request ++ utf8 " が見つかりません") 404
     else _success rows,
     (_query (SQL_CODE d (code_of request)) w).2).
Proof.
  intros H.
  destruct d; unfold by_code, export_by_code, import_by_code;
    fold (code_of request); rewrite bool_decide_eq_false_2 by done;
    rewrite query_then_accepted by done;
    unfold bind, SQL_CODE;
    match goal with |- context [_query ?s w] => destruct (_query s w) as [rows w'] end;
    simpl; by case_bool_decide.
Qed.

Lemma by_name_short :
  Py.len (keyword_of request) < 2 →
  by_name d request w =
    (_error (utf8 "q パラメータを2文字以上で指定してください") 400, w).
Proof.
  intros H. apply Z.ltb_lt in H.
  destruct d; unfold by_name, export_by_name, import_by_name;
    fold (keyword_of request); rewrite H; reflexivity.
Qed.

Lemma by_name_bad_limit :
  2 ≤ Py.len (keyword_of request) →
  limit_of request = None →
  by_name d request w =
    (_error (utf8 "limit パラメータは整数で指定してください") 400, w).
Proof.
  intros H Hl. apply Z.ltb_ge in H. unfold limit_of in Hl.
  destruct d; unfold by_name, export_by_name, import_by_name;
    fold (keyword_of request); rewrite H;
    (destruct (Py.int _); [done | reflexivity]).
Qed.

Lemma by_name_run limit :
  2 ≤ Py.len (keyword_of request) →
  limit_of request = Some limit →
  by_name d request w = search d (keyword_of request) limit w.
Proof.
  intros H Hl. apply Z.ltb_ge in H. unfold limit_of in Hl.
  destruct d; unfold by_name, export_by_name, import_by_name;
    fold (keyword_of request); rewrite H;
    destruct (Py.int _); simplify_eq/=; reflexivity.
Qed.


Lemma execute_raises_name db kw limit :
  execute_raises db (SQL_NAME d kw limit)
  = Sqlite.too_complex kw && bool_decide (FROM_JOIN (entries_of d db) db ≠ []).
Proof. by destruct d. Qed.

(** A search either raises, and Flask answers 500 for it, or returns the
    rows of [_query] in the envelope. *)
Lemma search_cases q limit :
  search d q limit w =
    if search_raises d (utf8 "%" ++ q ++ utf8 "%") w
    then (InternalServerError,
          {| DB_FILE := DB_FILE w; logged := logged w;
             executed := executed w
                         ++ [SQL_NAME d (utf8 "%" ++ q ++ utf8 "%") limit] |})
    else (_success (_query (SQL_NAME d (utf8 "%" ++ q ++ utf8 "%") limit) w).1,
          (_query (SQL_NAME d (utf8 "%" ++ q ++ utf8 "%") limit) w).2).
Proof.
  unfold search, search_raises, query_then.
  destruct (DB_FILE w) as [db|] eqn:Hdb.
  - rewrite execute_raises_name.
    destruct (Sqlite.too_complex _ && _); [done |].
    unfold bind, ret. by destruct (_query _ w).
  - unfold bind, ret. by destruct (_query _ w).
Qed.

Lemma search_run q limit :
  search_raises d (utf8 "%" ++ q ++ utf8 "%") w = false →
  search d q limit w =
    (_success (_query (SQL_NAME d (utf8 "%" ++ q ++ utf8 "%") limit) w).1,
     (_query (SQL_NAME d (utf8 "%" ++ q ++ utf8 "%") limit) w).2).
Proof. intros H. by rewrite search_cases, H. Qed.

Lemma search_raises_no_db pattern : DB_FILE w = None → search_raises d pattern w = false.
Proof. intros H. unfold search_raises. by rewrite H. Qed.

Lemma search_raises_short pattern :
  Sqlite.too_complex pattern = false → search_raises d pattern w = false.
Proof. intros H. unfold search_raises. rewrite H. by destruct (DB_FILE w). Qed.


End Handlers.

(** ** Routing *)

(** The four URL rules are the code-lookup and the search view of each
    direction. *)
Lemma url_map_directions :
  url_map =
    [ (code_path Export, by_code Export);
      (search_path Export, by_name Export);
      (code_path Import, by_code Import);
      (search_path Import, by_name Import) ].
Proof. reflexivity. Qed.

(** ** Parameter validation *)

(** C5: when the [code] parameter is absent or blank after trimming, both
    code-lookup routes answer 400 with [resultCd] false and a message, and
    leave the world as it was: no statement is executed. *)
Theorem code_missing_parameter (d : direction) (request : request) (w : world) :
  (args_get "code" request = None
   ∨ ∃ s, args_get "code" request = Some s ∧ blank s) →
  ∃ resp,
    by_code d request w = (resp, w)
    ∧ status resp = 400
    ∧ failure_envelope resp.
Proof.
  intros H.
  assert (code_of request = []) as Hc.
  { unfold code_of. destruct H as [-> | (s & -> & Hs)]; simpl.
    - reflexivity.
    - by apply strip_nil_iff. }
  rewrite by_code_blank by done.
  eexists; split_and!; [reflexivity | reflexivity | apply error_is_envelope].
Qed.

Lemma code_missing_parameter_witness :
  (∃ s, args_get "code" (GET [("code", "  ")]) = Some s ∧ blank s)
  ∧ ∃ resp,
      by_code Import (GET [("code", "  ")]) sample_world = (resp, sample_world)
      ∧ status resp = 400
      ∧ failure_envelope resp.
Proof.
  assert (∃ s, args_get "code" (GET [("code", "  ")]) = Some s ∧ blank s) as H.
  { eexists; split; [reflexivity | repeat constructor]. }
  split; [exact H |].
  apply (code_missing_parameter Import (GET [("code", "  ")]) sample_world).
  right; exact H.
Defined.

(** C4: when the keyword is absent, blank, or shorter than two characters
    after trimming, both search routes answer 400 with [resultCd] false,
    whatever the dataset holds, and leave the world as it was: no statement
    is executed. *)
Theorem search_keyword_too_short (d : direction) (request : request) (w : world) :
  (args_get "q" request = None
   ∨ ∃ s, args_get "q" request = Some s
          ∧ (blank s ∨ Py.len (Py.strip s) < 2)) →
  ∃ resp,
    by_name d request w = (resp, w)
    ∧ status resp = 400
    ∧ failure_envelope resp.
Proof.
  intros H.
  assert (Py.len (keyword_of request) < 2) as Hq.
  { unfold keyword_of.
    destruct H as [-> | (s & -> & [Hs | Hs])]; simpl; [done | | done].
    apply strip_nil_iff in Hs. by rewrite Hs. }
  rewrite by_name_short by done.
  eexists; split_and!; [reflexivity | reflexivity | apply error_is_envelope].
Qed.

Lemma search_keyword_too_short_witness :
  (∃ s, args_get "q" (GET [("q", " 馬 "); ("limit", "10")]) = Some s
        ∧ (blank s ∨ Py.len (Py.strip s) < 2))
  ∧ ∃ resp,
      by_name Export (GET [("q", " 馬 "); ("limit", "10")]) sample_world
        = (resp, sample_world)
      ∧ status resp = 400
      ∧ failure_envelope resp.
Proof.
  assert (∃ s, args_get "q" (GET [("q", " 馬 "); ("limit", "10")]) = Some s
               ∧ (blank s ∨ Py.len (Py.strip s) < 2)) as H.
  { eexists; split; [reflexivity | right; vm_compute; reflexivity]. }
  split; [exact H |].
  apply (search_keyword_too_short Export _ sample_world).
  right; exact H.
Defined.

(** ** Exact lookup *)

(** C2: for a code that is not blank, both code-lookup routes run their
    statement once with the trimmed code; no row gives 404 with [resultCd]
    false, a message and no [data]; one row or more gives 200 with
    [resultCd] true and those rows under [data]. *)
Theorem code_lookup_rows_or_not_found
    (d : direction) (request : request) (w : world) :
  (∃ s, args_get "code" request = Some s ∧ ¬ blank s) →
  let rows := (_query (SQL_CODE d (code_of request)) w).1 in
  ∃ resp,
    by_code d request w = (resp, (_query (SQL_CODE d (code_of request)) w).2)
    ∧ (rows = [] → status resp = 404 ∧ failure_envelope resp)
    ∧ (rows ≠ [] →
       status resp = 200
       ∧ body resp !! "resultCd" = Some (JBool true)
       ∧ body resp !! "data" = Some (JRows rows)
       ∧ body resp !! "message" = None).
Proof.
  intros (s & Hs & Hb) rows.
  assert (code_of request ≠ []) as Hc.
  { unfold code_of. rewrite Hs; simpl. by rewrite strip_nil_iff. }
  rewrite by_code_run by done. fold rows.
  eexists; split; [reflexivity |].
  cbv zeta. split; intros Hrows.
  - rewrite bool_decide_eq_true_2 by done.
    split; [reflexivity | apply error_is_envelope].
  - rewrite bool_decide_eq_false_2 by done.
    split_and!; reflexivity.
Qed.

Lemma code_lookup_rows_or_not_found_witness :
  (∃ s, args_get "code" (GET [("code", " 0101.21-000 ")]) = Some s ∧ ¬ blank s)
  ∧ ∃ resp,
      (by_code Export (GET [("code", " 0101.21-000 ")]) sample_world).1 = resp
      ∧ status resp = 200
      ∧ length (rows_of resp) = 1%nat.
Proof.
  assert (∃ s, args_get "code" (GET [("code", " 0101.21-000 ")]) = Some s
               ∧ ¬ blank s) as H.
  { eexists; split; [reflexivity |].
    intros Hb. apply strip_nil_iff in Hb. vm_compute in Hb. discriminate. }
  split; [exact H |].
  destruct (code_lookup_rows_or_not_found Export
              (GET [("code", " 0101.21-000 ")]) sample_world H)
    as (resp & Hrun & _ & Hrows).
  exists resp. rewrite Hrun. split; [reflexivity |].
  destruct Hrows as (Hst & _ & Hdata & _).
  - intros Heq. apply (f_equal length) in Heq. vm_compute in Heq. discriminate.
  - split; [exact Hst |]. unfold rows_of. rewrite Hdata. vm_compute. reflexivity.
Defined.

(** ** Missing dataset *)

(** C6: when the file [DB_FILE] does not exist, [_query] returns no row
    instead of raising (it writes one log record and executes nothing); an
    exact lookup then answers 404 and a search answers 200 with [resultCd]
    true and an empty [data]. *)
Theorem dataset_unavailable (w : world) :
  DB_FILE w = None →
  (∀ sql, (_query sql w).1 = [] ∧ executed (_query sql w).2 = executed w)
  ∧ (∀ d request,
       (∃ s, args_get "code" request = Some s ∧ ¬ blank s) →
       status (by_code d request w).1 = 404
       ∧ failure_envelope (by_code d request w).1)
  ∧ (∀ d request,
       2 ≤ Py.len (keyword_of request) →
       is_Some (limit_of request) →
       status (by_name d request w).1 = 200
       ∧ body (by_name d request w).1 !! "resultCd" = Some (JBool true)
       ∧ body (by_name d request w).1 !! "data" = Some (JRows [])).
Proof.
  intros Hdb. split_and!.
  - intros sql. by rewrite query_no_db.
  - intros d request (s & Hs & Hb).
    assert (code_of request ≠ []) as Hc.
    { unfold code_of. rewrite Hs; simpl. by rewrite strip_nil_iff. }
    rewrite by_code_run, query_no_db by done; simpl.
    split; [reflexivity | apply error_is_envelope].
  - intros d request Hq [limit Hl].
    rewrite (by_name_run _ _ _ limit), search_run, query_no_db
      by (done || by apply search_raises_no_db); simpl.
    split_and!; reflexivity.
Qed.

Lemma dataset_unavailable_witness :
  DB_FILE no_db_world = None
  ∧ status (by_code Import (GET [("code", "0101.21-000")]) no_db_world).1 = 404
  ∧ rows_of (by_name Export (GET [("q", "動物")]) no_db_world).1 = []
  ∧ status (by_name Export (GET [("q", "動物")]) no_db_world).1 = 200.
Proof.
  split; [reflexivity |].
  destruct (dataset_unavailable no_db_world eq_refl) as (_ & Hcode & Hname).
  split.
  - apply Hcode. eexists; split; [reflexivity |].
    intros Hb. apply strip_nil_iff in Hb. vm_compute in Hb. discriminate.
  - destruct (Hname Export (GET [("q", "動物")])) as (Hst & _ & Hdata).
    + vm_compute. discriminate.
    + vm_compute. eauto.
    + split; [| exact Hst]. unfold rows_of. by rewrite Hdata.
Defined.

(** ** Result rows *)

Section Rows.

Variables (d : direction) (request : request) (w : world).

(** Every row a statement returns is the dict of its SELECT list over
    some row of the join. *)
Lemma execute_code_rows db code row :
  row ∈ execute db (SQL_CODE d code) →
  ∃ j, row = to_dict (select_list d) j ∧ WHERE_code code j = true.
Proof.
  destruct d; simpl; unfold SELECT; intros Hrow;
    apply list_elem_of_fmap in Hrow as (j & -> & Hj);
    apply list_elem_of_In, filter_In in Hj as [_ Hj]; eauto.
Qed.

Lemma execute_name_rows db kw limit row :
  row ∈ execute db (SQL_NAME d kw limit) →
  ∃ j, row = to_dict (select_list d) j ∧ WHERE_name kw j = true.
Proof.
  assert (∀ (l : list joined) j,
            j ∈ Sqlite.limit limit (ORDER_BY_tonban l) → j ∈ l) as Hsub.
  { intros l j. unfold Sqlite.limit, ORDER_BY_tonban, Sqlite.order_by.
    intros Hj.
    assert (j ∈ merge_sort (Sqlite.le_by (λ j, tonban (te j))) l) as Hm.
    { destruct (limit <? 0); [done |]. by eapply subseteq_take. }
    by rewrite merge_sort_Permutation in Hm. }
  destruct d; simpl; unfold SELECT; intros Hrow;
    apply list_elem_of_fmap in Hrow as (j & -> & Hj);
    apply Hsub, list_elem_of_In, filter_In in Hj as [_ Hj]; eauto.
Qed.

Lemma query_rows sql row :
  row ∈ (_query sql w).1 → ∃ db, DB_FILE w = Some db ∧ row ∈ execute db sql.
Proof.
  destruct (DB_FILE w) as [db|] eqn:H.
  - rewrite (query_db _ db) by done. eauto.
  - rewrite query_no_db by done. by intros ?%elem_of_nil.
Qed.

Lemma by_code_rows row :
  row ∈ rows_of (by_code d request w).1 →
  ∃ j, row = to_dict (select_list d) j.
Proof.
  destruct (decide (code_of request = [])) as [Hc | Hc].
  - rewrite by_code_blank by done. by intros ?%elem_of_nil.
  - rewrite by_code_run by done; cbv zeta. case_bool_decide; simpl.
    + by intros ?%elem_of_nil.
    + rewrite rows_of_success.
      intros (db & _ & (j & ? & _)%execute_code_rows)%query_rows. eauto.
Qed.

Lemma by_name_rows row :
  row ∈ rows_of (by_name d request w).1 →
  ∃ j, row = to_dict (select_list d) j.
Proof.
  destruct (Z.lt_ge_cases (Py.len (keyword_of request)) 2) as [Hq | Hq].
  - rewrite by_name_short by done. by intros ?%elem_of_nil.
  - destruct (limit_of request) as [limit|] eqn:Hl.
    + rewrite (by_name_run _ _ _ limit), search_cases by done.
      destruct (search_raises _ _ _); cbn [fst].
      * rewrite rows_of_internal_server_error. by intros ?%elem_of_nil.
      * rewrite rows_of_success.
        intros (db & _ & (j & ? & _)%execute_name_rows)%query_rows. eauto.
    + rewrite by_name_bad_limit by done. by intros ?%elem_of_nil.
Qed.

End Rows.

Section Columns.

Variable j : joined.

Lemma import_rate_column c :
  to_dict (select_list Import) j !! rate_column c = Some (kanzeiritsu (te j) c).
Proof. destruct c; vm_compute; reflexivity. Qed.

Lemma export_rate_column c :
  to_dict (select_list Export) j !! rate_column c = None.
Proof. destruct c; vm_compute; reflexivity. Qed.

Lemma leaf_code_to_dict d : leaf_code (to_dict (select_list d) j) = tonban (te j).
Proof. destruct d; vm_compute; reflexivity. Qed.

End Columns.

(** The names of [SELECT_IMPORT_EXTRA] are the rate columns, each once. *)
Lemma import_extra_names : SELECT_IMPORT_EXTRA.*1 = rate_column <$> all_rates.
Proof. reflexivity. Qed.

Lemma all_rates_complete c : c ∈ all_rates.
Proof. destruct c; unfold all_rates; set_solver. Qed.

(** ** The envelope of every route *)




(** ** Rate columns *)

(** C8: every row an import route returns has every tariff-rate column as
    a key (its value may be NULL), and no row an export route returns has
    any of them. *)
Theorem rate_columns_import_only (request : request) (w : world) (c : rate) :
  Forall (fun row => is_Some (row !! rate_column c))
         (rows_of (by_code Import request w).1)
  ∧ Forall (fun row => is_Some (row !! rate_column c))
           (rows_of (by_name Import request w).1)
  ∧ Forall (fun row => row !! rate_column c = None)
           (rows_of (by_code Export request w).1)
  ∧ Forall (fun row => row !! rate_column c = None)
           (rows_of (by_name Export request w).1).
Proof.
  split_and!; apply Forall_forall; intros row Hrow.
  - apply by_code_rows in Hrow as (j & ->). by rewrite import_rate_column.
  - apply by_name_rows in Hrow as (j & ->). by rewrite import_rate_column.
  - apply by_code_rows in Hrow as (j & ->). apply export_rate_column.
  - apply by_name_rows in Hrow as (j & ->). apply export_rate_column.
Qed.

(** The statement above is about rows that exist: the sample import lookup
    returns one row, with the basic rate and a NULL provisional rate. *)
Example import_row_has_rates :
  (fun row => (row !! rate_column Kihon, row !! rate_column Zantei))
    <$> rows_of (by_code Import (GET [("code", "0101.21-000")]) sample_world).1
  = [ (Some (T "無税"), Some Sqlite.Null) ].
Proof. vm_compute. reflexivity. Qed.

(** ** Repeated requests *)

Section Determinism.

Variables (d : direction) (request : request).

Lemma query_same_db sql w w' :
  DB_FILE w = DB_FILE w' → (_query sql w).1 = (_query sql w').1.
Proof.
  intros H. destruct (DB_FILE w) as [db|] eqn:Hw.
  - by rewrite (query_db w db), (query_db w' db).
  - by rewrite (query_no_db w), (query_no_db w').
Qed.

Lemma by_code_same_db w w' :
  DB_FILE w = DB_FILE w' → (by_code d request w).1 = (by_code d request w').1.
Proof.
  intros H. destruct (decide (code_of request = [])) as [Hc | Hc].
  - by rewrite !by_code_blank.
  - rewrite !by_code_run by done; cbv zeta; simpl.
    by rewrite (query_same_db _ w w').
Qed.

Lemma by_name_same_db w w' :
  DB_FILE w = DB_FILE w' → (by_name d request w).1 = (by_name d request w').1.
Proof.
  intros H. destruct (Z.lt_ge_cases (Py.len (keyword_of request)) 2) as [Hq | Hq].
  - by rewrite !by_name_short.
  - destruct (limit_of request) as [limit|] eqn:Hl.
    + rewrite !(by_name_run _ _ _ limit), !search_cases by done.
      assert (∀ p, search_raises d p w = search_raises d p w') as ->.
      { intros p. unfold search_raises. by rewrite H. }
      destruct (search_raises _ _ _); cbn [fst]; [done |].
      by rewrite (query_same_db _ w w').
    + by rewrite !by_name_bad_limit.
Qed.

Lemma by_code_keeps_db w : DB_FILE (by_code d request w).2 = DB_FILE w.
Proof.
  destruct (decide (code_of request = [])) as [Hc | Hc].
  - by rewrite by_code_blank.
  - rewrite by_code_run by done; simpl. apply query_keeps_db.
Qed.

Lemma by_name_keeps_db w : DB_FILE (by_name d request w).2 = DB_FILE w.
Proof.
  destruct (Z.lt_ge_cases (Py.len (keyword_of request)) 2) as [Hq | Hq].
  - by rewrite by_name_short.
  - destruct (limit_of request) as [limit|] eqn:Hl.
    + rewrite (by_name_run _ _ _ limit), search_cases by done.
      destruct (search_raises _ _ _); cbn [snd]; [done |].
      apply query_keeps_db.
    + by rewrite by_name_bad_limit.
Qed.

Lemma by_code_repeat w :
  let first := by_code d request w in
  let second := by_code d request first.2 in
  second.1 = first.1
  ∧ DB_FILE first.2 = DB_FILE w
  ∧ first.1 =
      (by_code d request
         {| DB_FILE := DB_FILE w; logged := []; executed := [] |}).1.
Proof.
  cbv zeta. split_and!.
  - apply by_code_same_db, by_code_keeps_db.
  - apply by_code_keeps_db.
  - by apply by_code_same_db.
Qed.

Lemma by_name_repeat w :
  let first := by_name d request w in
  let second := by_name d request first.2 in
  second.1 = first.1
  ∧ DB_FILE first.2 = DB_FILE w
  ∧ first.1 =
      (by_name d request
         {| DB_FILE := DB_FILE w; logged := []; executed := [] |}).1.
Proof.
  cbv zeta. split_and!.
  - apply by_name_same_db, by_name_keeps_db.
  - apply by_name_keeps_db.
  - by apply by_name_same_db.
Qed.

End Determinism.

(** C9: on each route, a request leaves the dataset as it found it, its
    response is the one the same request gets in a world with the same
    dataset and nothing logged or executed before, and the same request made
    again right after gets the same response, [data] included. *)
Theorem identical_requests_identical_data :
  Forall (fun route : string * (request -> M response) =>
            ∀ request w,
              let first := route.2 request w in
              let second := route.2 request first.2 in
              second.1 = first.1
              ∧ DB_FILE first.2 = DB_FILE w
              ∧ first.1 =
                  (route.2 request
                     {| DB_FILE := DB_FILE w; logged := []; executed := [] |}).1)
         url_map.
Proof.
  rewrite url_map_directions.
  repeat (constructor;
          [intros request w; first [apply by_code_repeat | apply by_name_repeat] |]).
  constructor.
Qed.

(** The first request on a missing dataset does change the world (it
    logs), and the second still gets the same response. *)
Example repeated_request_logs :
  let first := by_name Export (GET [("q", "動物")]) no_db_world in
  length (logged first.2) = 1%nat
  ∧ (by_name Export (GET [("q", "動物")]) first.2).1 = first.1.
Proof. vm_compute. split; reflexivity. Qed.

(** ** The limit parameter *)



(** ** LIKE *)

Section Like.

Lemma pattern_compare_percent p s :
  Sqlite.pattern_compare (Sqlite.percent :: p) s =
    Sqlite.pattern_compare p s
    || match s with
       | [] => false
       | _ :: s' => Sqlite.pattern_compare (Sqlite.percent :: p) s'
       end.
Proof. destruct s; reflexivity. Qed.

Lemma pattern_compare_char c p s :
  c ≠ Sqlite.percent → c ≠ Sqlite.underscore →
  Sqlite.pattern_compare (c :: p) s =
    match s with
    | [] => false
    | d :: s' => (Sqlite.tolower c =? Sqlite.tolower d)%N
                 && Sqlite.pattern_compare p s'
    end.
Proof.
  intros Hp Hu. simpl.
  destruct (N.eqb_spec c Sqlite.percent); [done |].
  destruct (N.eqb_spec c Sqlite.underscore); [done |].
  reflexivity.
Qed.




Lemma c_str_nonzero s : Forall (fun c => c ≠ 0%N) s → Sqlite.c_str s = s.
Proof.
  induction 1 as [|c s Hc _ IH]; simpl; [done |].
  destruct (N.eqb_spec c 0); [done |]. by rewrite IH.
Qed.



Lemma starts_with_spec q t :
  starts_with q t = true ↔ ∃ post : list N, t = (q ++ post)%list.
Proof.
  revert t. induction q as [|c q IH]; intros [|d t]; simpl.
  - split; [by exists [] | done].
  - split; [by exists (d :: t) | done].
  - split; [done | by intros [? ?]].
  - rewrite andb_true_iff, N.eqb_eq, IH. split.
    + intros [-> [post ->]]. by exists post.
    + intros [post [= -> ->]]. eauto.
Qed.

Lemma contains_spec q t : contains q t = true ↔ substring q t.
Proof.
  unfold substring. induction t as [|d t IH]; simpl;
    rewrite orb_true_iff, starts_with_spec.
  - split.
    + intros [[post H] | ?]; [| done]. by exists [], post.
    + intros ([|? pre] & post & H); [| done]. left. by exists post.
  - rewrite IH. split.
    + intros [[post H] | (pre & post & ->)].
      * by exists [], post.
      * by exists (d :: pre), post.
    + intros ([|? pre] & post & H).
      * left. by exists post.
      * right. injection H as -> ->. by exists pre, post.
Qed.

Lemma holds_keyword_spec q row :
  holds_keyword q row ↔ holds_keyword_b q row = true.
Proof.
  unfold holds_keyword, holds_keyword_b. rewrite existsb_exists. split.
  - intros (col & t & Hcol & Hrow & Hsub). exists col.
    rewrite <- list_elem_of_In, Hrow. split; [done | by apply contains_spec].
  - intros (col & Hcol & H).
    destruct (row !! col) as [[|t]|] eqn:Hrow; try done.
    exists col, t. rewrite list_elem_of_In. split_and!; [done | done |].
    by apply contains_spec.
Qed.


Lemma not_all_hold q rows :
  forallb (holds_keyword_b q) rows = false →
  ∃ row, row ∈ rows ∧ ¬ holds_keyword q row.
Proof.
  induction rows as [|row rows IH]; simpl; [done |].
  intros [H | H]%andb_false_iff.
  - exists row. split; [constructor |].
    rewrite holds_keyword_spec. by rewrite H.
  - destruct (IH H) as (row' & ? & ?). exists row'. split; [by constructor | done].
Qed.

End Like.

(** ** ORDER BY and LIMIT *)

Section Order.

Lemma text_le_total s t : Sqlite.text_le s t = true ∨ Sqlite.text_le t s = true.
Proof.
  revert t. induction s as [|c s IH]; intros [|d t]; simpl; auto.
  destruct (IH t) as [H | H]; rewrite H;
    destruct (N.ltb_spec c d), (N.ltb_spec d c), (N.eqb_spec c d),
      (N.eqb_spec d c); simpl; auto; lia.
Qed.

Lemma text_le_trans s t u :
  Sqlite.text_le s t = true → Sqlite.text_le t u = true →
  Sqlite.text_le s u = true.
Proof.
  revert t u. induction s as [|c s IH]; intros [|d t] [|e u]; simpl; try done.
  intros [Hcd | [Hcd Hst]%andb_true_iff]%orb_true_iff
         [Hde | [Hde Htu]%andb_true_iff]%orb_true_iff;
    repeat match goal with
           | H : (_ <? _)%N = true |- _ => apply N.ltb_lt in H
           | H : (_ =? _)%N = true |- _ => apply N.eqb_eq in H
           end;
    apply orb_true_iff.
  - left. apply N.ltb_lt. lia.
  - left. apply N.ltb_lt. lia.
  - left. apply N.ltb_lt. lia.
  - right. apply andb_true_iff. split; [apply N.eqb_eq; lia | by eapply IH].
Qed.

Context {A : Type} (key : A -> Sqlite.value).

#[local] Instance le_by_total : Total (Sqlite.le_by key).
Proof.
  intros x y. unfold Sqlite.le_by.
  destruct (key x) as [|s], (key y) as [|t]; simpl; auto using text_le_total.
Qed.

#[local] Instance le_by_trans : Transitive (Sqlite.le_by key).
Proof.
  intros x y z. unfold Sqlite.le_by.
  destruct (key x) as [|s], (key y) as [|t], (key z) as [|u]; simpl;
    try done. apply text_le_trans.
Qed.

Lemma order_by_sorted rows :
  StronglySorted (Sqlite.le_by key) (Sqlite.order_by key rows).
Proof. apply StronglySorted_merge_sort; apply _. Qed.



End Order.

(** ** Keyword search *)

Section Search.

Variables (d : direction) (db : database) (kw : list N) (limit : Z).






End Search.




(** ** LIKE wildcards in the keyword *)

(** C10: there is a valid keyword with a LIKE wildcard in it for which a
    returned row holds the keyword in none of the five columns: the keyword
    goes into the pattern [%q%] as it is, and its [%] matches any run of
    characters. *)
Theorem keyword_wildcards_not_literal :
  ∃ (d : direction) (request : request) (w : world)
    (row : gmap string Sqlite.value),
    let q := keyword_of request in
    2 ≤ Py.len q
    ∧ (Sqlite.percent ∈ q ∨ Sqlite.underscore ∈ q)
    ∧ executed (by_name d request w).2
      = (executed w
         ++ [SQL_NAME d ([Sqlite.percent] ++ q ++ [Sqlite.percent]) 100])%list
    ∧ row ∈ rows_of (by_name d request w).1
    ∧ ¬ holds_keyword q row.
Proof.
  pose (request := GET [("q", "1%馬")]).
  destruct (not_all_hold (keyword_of request)
              (rows_of (by_name Import request sample_world).1))
    as (row & Hrow & Hnot); [vm_compute; reflexivity |].
  exists Import, request, sample_world, row. cbv zeta. split_and!.
  - vm_compute. discriminate.
  - left. vm_compute. repeat constructor.
  - vm_compute. reflexivity.
  - exact Hrow.
  - exact Hnot.
Qed.

(** * Further properties *)

(** ** The join *)

Section Join.

Lemma join_on_elem {A} (t : list A) (cond : A -> bool) x :
  x ∈ JOIN_ON t cond ↔ x ∈ t ∧ cond x = true.
Proof. unfold JOIN_ON. by rewrite list_elem_of_In, filter_In, <- list_elem_of_In. Qed.

Lemma from_join_ancestry entries db : FROM_JOIN entries db = entries ≫= ancestry db.
Proof. reflexivity. Qed.

Lemma ancestry_spec db e j :
  j ∈ ancestry db e ↔
    te j = e
    ∧ g j ∈ gou_table db ∧ k j ∈ kou_table db
    ∧ r j ∈ rui_table db ∧ b j ∈ bu_table db
    ∧ Sqlite.eq (gou_ban (g j)) (Sqlite.substr1 (tonban (te j)) 7) = true
    ∧ Sqlite.eq (kou_ban (k j)) (gou_kou_ban (g j)) = true
    ∧ Sqlite.eq (rui_ban (r j)) (kou_rui_ban (k j)) = true
    ∧ Sqlite.eq (bu_ban (b j)) (rui_bu_ban (r j)) = true.
Proof.
  unfold ancestry. split.
  - intros (g0 & (k0 & (r0 & (b0 & Hj & Hb)%list_elem_of_bind & Hr)%list_elem_of_bind
                  & Hk)%list_elem_of_bind & Hg)%list_elem_of_bind.
    apply list_elem_of_singleton in Hj as ->; simpl.
    apply join_on_elem in Hg as [? ?], Hk as [? ?], Hr as [? ?], Hb as [? ?].
    done.
  - intros (<- & Hg & Hk & Hr & Hb & Eg & Ek & Er & Eb).
    apply list_elem_of_bind. exists (g j). split; [| by apply join_on_elem].
    apply list_elem_of_bind. exists (k j). split; [| by apply join_on_elem].
    apply list_elem_of_bind. exists (r j). split; [| by apply join_on_elem].
    apply list_elem_of_bind. exists (b j). split; [| by apply join_on_elem].
    destruct j; simpl. apply list_elem_of_singleton. reflexivity.
Qed.

Lemma from_join_spec entries db j :
  j ∈ FROM_JOIN entries db ↔ te j ∈ entries ∧ j ∈ ancestry db (te j).
Proof.
  rewrite from_join_ancestry, list_elem_of_bind. split.
  - intros (e & Hj & He). pose proof Hj as Hj'.
    apply ancestry_spec in Hj' as [<- _]. done.
  - intros [He Hj]. eauto.
Qed.

Lemma eq_true_iff a c : Sqlite.eq a c = true ↔ ∃ t, a = Sqlite.Text t ∧ c = Sqlite.Text t.
Proof.
  destruct a as [|s], c as [|t]; simpl; try (split; [done | by intros (? & ? & ?)]).
  rewrite bool_decide_eq_true. split.
  - intros ->. eauto.
  - intros (u & [= ->] & [= ->]). done.
Qed.

End Join.

(** ** Exact lookup: what is found *)

Section Lookup.

Variables (d : direction) (request : request) (w : world).

Lemma entries_code_rows db code row :
  row ∈ execute db (SQL_CODE d code) ↔
    ∃ j, row = to_dict (select_list d) j
         ∧ j ∈ FROM_JOIN (entries_of d db) db
         ∧ tonban (te j) = Sqlite.Text code.
Proof.
  assert (∀ cols entries,
            row ∈ SELECT cols (List.filter (WHERE_code code) (FROM_JOIN entries db))
            ↔ ∃ j, row = to_dict cols j ∧ j ∈ FROM_JOIN entries db
                   ∧ tonban (te j) = Sqlite.Text code) as H.
  { intros cols entries. unfold SELECT. rewrite list_elem_of_fmap.
    apply exist_proper. intros j.
    rewrite list_elem_of_In, filter_In, <- list_elem_of_In.
    unfold WHERE_code. rewrite eq_true_iff. split.
    - intros (? & ? & (t & ? & [= ->])). done.
    - intros (? & ? & ?). eauto. }
  destruct d; apply H.
Qed.

Lemma by_code_rows_found row :
  row ∈ rows_of (by_code d request w).1 ↔
    ∃ db, DB_FILE w = Some db ∧ code_of request ≠ []
          ∧ row ∈ execute db (SQL_CODE d (code_of request)).
Proof.
  destruct (decide (code_of request = [])) as [Hc | Hc].
  - rewrite by_code_blank by done. split.
    + by intros ?%elem_of_nil.
    + by intros (? & ? & ? & ?).
  - rewrite by_code_run by done; cbv zeta.
    destruct (DB_FILE w) as [db|] eqn:Hdb.
    + rewrite (query_db _ db) by done; simpl.
      case_bool_decide as Hrows; simpl.
      * split; [by intros ?%elem_of_nil |].
        intros (? & [= <-] & _ & Hrow). rewrite Hrows in Hrow.
        by apply elem_of_nil in Hrow.
      * rewrite rows_of_success. split; [eauto |].
        intros (? & [= <-] & _ & ?). done.
    + rewrite query_no_db by done; simpl. split.
      * by intros ?%elem_of_nil.
      * by intros (? & ? & ?).
Qed.

End Lookup.

(** X1: every row an exact lookup returns has the columns of the entry the
    WHERE clause selected and of the subheading the first ON clause joined
    to it: under [統番] a value that the [=] of the statement finds equal to
    the trimmed [code] parameter, and under [号番] a value that it finds
    equal to [substr] of that [統番] from 1 for 7. Between two TEXT values,
    the storage class of this development, that [=] is equality character
    for character; nothing is said here of a column stored as a number. *)
Theorem code_lookup_rows_match
    (d : direction) (request : request) (w : world)
    (row : gmap string Sqlite.value) :
  row ∈ rows_of (by_code d request w).1 →
  ∃ code gou : Sqlite.value,
    row !! "統番" = Some code
    ∧ row !! "号番" = Some gou
    ∧ Sqlite.eq code (Sqlite.Text (code_of request)) = true
    ∧ Sqlite.eq gou (Sqlite.substr1 code 7) = true.
Proof.
  intros (db & _ & _ & (j & -> & Hj & Hcode)%entries_code_rows)%by_code_rows_found.
  apply from_join_spec in Hj as [_ Hj].
  apply ancestry_spec in Hj as (_ & _ & _ & _ & _ & Hg & _).
  exists (tonban (te j)), (gou_ban (g j)).
  assert (to_dict (select_list d) j !! "統番" = Some (tonban (te j))
          ∧ to_dict (select_list d) j !! "号番" = Some (gou_ban (g j))) as [-> ->].
  { destruct d; vm_compute; split; reflexivity. }
  split_and!; [done | done | | done].
  rewrite Hcode. simpl. by apply bool_decide_eq_true.
Qed.

Lemma code_lookup_rows_match_witness :
  let rows :=
    rows_of (by_code Import (GET [("code", " 0101.29-000")]) sample_world).1 in
  (λ row, (row !! "統番", row !! "号番")) <$> rows
  = [(Some (T "0101.29-000"), Some (T "0101.29"))]
  ∧ Forall (fun row =>
              ∃ code gou : Sqlite.value,
                row !! "統番" = Some code
                ∧ row !! "号番" = Some gou
                ∧ Sqlite.eq code (T "0101.29-000") = true
                ∧ Sqlite.eq gou (Sqlite.substr1 code 7) = true) rows.
Proof.
  split; [vm_compute; reflexivity |].
  apply Forall_forall. intros row Hrow.
  exact (code_lookup_rows_match Import (GET [("code", " 0101.29-000")])
           sample_world row Hrow).
Defined.



(** An entry without its subheading is not found, although it is in the
    entry table. *)
Example orphan_entry_not_found :
  let db := {| yushutsu_tonban := sample_entries; yunyu_tonban := [];
               gou_table := []; kou_table := kou_table sample_db;
               rui_table := rui_table sample_db; bu_table := bu_table sample_db |} in
  status (by_code Export (GET [("code", "0101.21-000")])
            {| DB_FILE := Some db; logged := []; executed := [] |}).1 = 404.
Proof. vm_compute. reflexivity. Qed.

(** ** Exact lookup under unique keys *)

Section Unique.

Lemma filter_none {A} (P : A -> bool) l :
  (∀ x, x ∈ l → P x = false) → List.filter P l = [].
Proof.
  induction l as [|x l IH]; simpl; [done |]. intros H.
  rewrite (H x) by constructor. apply IH. intros y Hy. apply H. by constructor.
Qed.

Lemma filter_constant {A} (P : A -> bool) (c : bool) l :
  (∀ x, x ∈ l → P x = c) → List.filter P l = if c then l else [].
Proof.
  intros H. destruct c; [| by apply filter_none].
  induction l as [|x l IH]; simpl; [done |].
  rewrite (H x) by constructor. f_equal. apply IH. intros y Hy. apply H. by constructor.
Qed.

Lemma unique_key_tail {A} (key : A -> Sqlite.value) x table :
  unique_key key (x :: table) → unique_key key table.
Proof.
  intros H i1 i2 x1 x2 H1 H2 He.
  by specialize (H (S i1) (S i2) x1 x2 H1 H2 He) as [= ->].
Qed.

Lemma unique_key_filter {A} (key : A -> Sqlite.value) v table :
  unique_key key table →
  (length (List.filter (fun x => Sqlite.eq (key x) v) table) ≤ 1)%nat.
Proof.
  induction table as [|x table IH]; simpl; [lia |]. intros Hu.
  destruct (Sqlite.eq (key x) v) eqn:Hx.
  - rewrite filter_none; [simpl; lia |].
    intros y [i Hy]%list_elem_of_lookup.
    destruct (Sqlite.eq (key y) v) eqn:Hyv; [| done].
    apply eq_true_iff in Hx as (t & Hkx & ->), Hyv as (t' & Hky & [= <-]).
    assert (Sqlite.eq (key x) (key y) = true) as He.
    { apply eq_true_iff. eauto. }
    by specialize (Hu 0%nat (S i) x y eq_refl Hy He).
  - apply IH. by eapply unique_key_tail.
Qed.

Lemma unique_key_nodup {A} (key : A -> Sqlite.value) table :
  NoDup (key <$> table) → unique_key key table.
Proof.
  intros Hnd i1 i2 x1 x2 H1 H2 He.
  apply eq_true_iff in He as (t & Hk1 & Hk2).
  eapply NoDup_lookup; [exact Hnd | |].
  - rewrite list_lookup_fmap, H1. reflexivity.
  - rewrite list_lookup_fmap, H2; simpl. by rewrite Hk1, Hk2.
Qed.

Lemma length_bind_le_1 {A B} (f : A -> list B) l :
  (length l ≤ 1)%nat → (∀ x, (length (f x) ≤ 1)%nat) →
  (length (l ≫= f) ≤ 1)%nat.
Proof.
  intros Hl Hf. destruct l as [|x [|y l]]; simpl in *; [lia | | lia].
  rewrite app_nil_r. apply Hf.
Qed.

Variables (d : direction) (db : database).
Hypothesis Hunique : unique_keys d db.

Lemma ancestry_at_most_one e : (length (ancestry db e) ≤ 1)%nat.
Proof.
  pose proof Hunique as (_ & Hg & Hk & Hr & Hb). unfold ancestry, JOIN_ON.
  apply length_bind_le_1; [by apply unique_key_filter | intros g0].
  apply length_bind_le_1; [by apply unique_key_filter | intros k0].
  apply length_bind_le_1; [by apply unique_key_filter | intros r0].
  apply length_bind_le_1; [by apply unique_key_filter | intros b0].
  simpl. lia.
Qed.

Lemma where_code_ancestry code e :
  List.filter (WHERE_code code) (ancestry db e)
  = if Sqlite.eq (tonban e) (Sqlite.Text code) then ancestry db e else [].
Proof.
  apply filter_constant. intros j Hj.
  apply ancestry_spec in Hj as [<- _]. reflexivity.
Qed.

Lemma where_code_at_most_one code entries :
  unique_key tonban entries →
  (length (List.filter (WHERE_code code) (FROM_JOIN entries db)) ≤ 1)%nat.
Proof.
  rewrite from_join_ancestry.
  induction entries as [|e entries IH]; [simpl; lia |]. intros Hu.
  rewrite bind_cons, List.filter_app, length_app, where_code_ancestry.
  destruct (Sqlite.eq (tonban e) (Sqlite.Text code)) eqn:He.
  - rewrite (filter_none _ (entries ≫= ancestry db)).
    + pose proof (ancestry_at_most_one e). simpl. lia.
    + intros j Hj. rewrite <- from_join_ancestry in Hj.
      apply from_join_spec in Hj as [[i Hi]%list_elem_of_lookup _].
      unfold WHERE_code.
      destruct (Sqlite.eq (tonban (te j)) (Sqlite.Text code)) eqn:Hj; [| done].
      apply eq_true_iff in He as (t & Hke & [= <-]), Hj as (t' & Hkj & [= <-]).
      assert (Sqlite.eq (tonban e) (tonban (te j)) = true) as Heq.
      { apply eq_true_iff. eauto. }
      by specialize (Hu 0%nat (S i) e (te j) eq_refl Hi Heq).
  - simpl. apply IH. by eapply unique_key_tail.
Qed.

Lemma execute_code_at_most_one code :
  (length (execute db (SQL_CODE d code)) ≤ 1)%nat.
Proof.
  pose proof Hunique as (He & _).
  assert (∀ cols entries,
            unique_key tonban entries →
            (length (SELECT cols (List.filter (WHERE_code code)
                                    (FROM_JOIN entries db))) ≤ 1)%nat) as H.
  { intros cols entries Hu. unfold SELECT. rewrite length_fmap.
    by apply where_code_at_most_one. }
  clear Hunique. destruct d; simpl; by apply H.
Qed.

End Unique.

(** X3: when the leaf codes of the entry table and the codes of the four
    hierarchy tables are unique, an exact lookup returns at most one row:
    together with X2, exactly one for a code that is found. *)
Theorem code_lookup_at_most_one_row
    (d : direction) (request : request) (w : world) (db : database) :
  DB_FILE w = Some db →
  unique_keys d db →
  (length (rows_of (by_code d request w).1) ≤ 1)%nat.
Proof.
  intros Hdb Hu.
  destruct (decide (code_of request = [])) as [Hc | Hc].
  - rewrite by_code_blank by done. cbn [fst]. rewrite rows_of_error. simpl. lia.
  - rewrite by_code_run, (query_db _ db) by done; cbv zeta; cbn [fst].
    case_bool_decide.
    + rewrite rows_of_error. simpl. lia.
    + rewrite rows_of_success. by apply execute_code_at_most_one.
Qed.

Lemma code_lookup_at_most_one_row_witness :
  DB_FILE sample_world = Some sample_db
  ∧ unique_keys Import sample_db
  ∧ (length (rows_of (by_code Import (GET [("code", "0101.21-000")])
                        sample_world).1) ≤ 1)%nat.
Proof.
  assert (unique_keys Import sample_db) as Hu.
  { unfold unique_keys. split_and!; apply unique_key_nodup;
      apply (bool_decide_unpack _); vm_compute; reflexivity. }
  split; [reflexivity |]. split; [exact Hu |].
  exact (code_lookup_at_most_one_row Import (GET [("code", "0101.21-000")])
           sample_world sample_db eq_refl Hu).
Defined.

(** ** The columns of a row *)

Section RowColumns.

Lemma select_list_nodup d : NoDup (select_list d).*1.
Proof. destruct d; apply (bool_decide_unpack _); vm_compute; reflexivity. Qed.

Lemma to_dict_dom cols j : dom (to_dict cols j) = list_to_set cols.*1.
Proof.
  unfold to_dict. rewrite dom_list_to_map_L. f_equal.
  rewrite <- list_fmap_compose. reflexivity.
Qed.

Lemma to_dict_size d j : size (to_dict (select_list d) j) = length (select_list d).
Proof.
  rewrite <- size_dom, to_dict_dom, size_list_to_set by apply select_list_nodup.
  apply length_fmap.
Qed.

End RowColumns.

(** X4: every row of every route has exactly the columns of its SELECT
    list as keys: the fifteen common columns for an export route, and these
    with the twenty-seven rate columns, forty-two in all, for an import
    route. *)
Theorem row_columns (d : direction) (request : request) (w : world) :
  let columns : gset string := list_to_set (select_list d).*1 in
  let count := match d with Export => 15%nat | Import => 42%nat end in
  Forall (fun row => dom row = columns ∧ size row = count)
         (rows_of (by_code d request w).1)
  ∧ Forall (fun row => dom row = columns ∧ size row = count)
           (rows_of (by_name d request w).1).
Proof.
  intros columns count.
  assert (∀ j, dom (to_dict (select_list d) j) = columns
               ∧ size (to_dict (select_list d) j) = count) as H.
  { intros j. split; [apply to_dict_dom |].
    rewrite to_dict_size. subst count. by destruct d. }
  split; apply Forall_forall; intros row Hrow.
  - apply by_code_rows in Hrow as (j & ->). apply H.
  - apply by_name_rows in Hrow as (j & ->). apply H.
Qed.

(** The common columns, as the source lists them. *)
Example export_columns :
  (select_list Export).*1
  = [ "部番"; "類番"; "項番"; "号番"; "統番"; "部タイトル"; "類タイトル";
      "項タイトル"; "号タイトル"; "部注"; "類注"; "品名"; "単位1"; "単位2";
      "他法令" ].
Proof. reflexivity. Qed.

(** ** Keyword search: which rows, how many *)

Section SearchRows.

Lemma pattern_compare_anything s : Sqlite.pattern_compare [Sqlite.percent] s = true.
Proof.
  induction s as [|c s IH]; rewrite pattern_compare_percent; [done |].
  by rewrite IH, orb_true_r.
Qed.

Lemma pattern_compare_skip p pre s :
  Sqlite.pattern_compare p s = true →
  Sqlite.pattern_compare (Sqlite.percent :: p) (pre ++ s) = true.
Proof.
  intros H. induction pre as [|c pre IH]; simpl app;
    rewrite pattern_compare_percent.
  - by rewrite H.
  - rewrite IH. apply orb_true_r.
Qed.

(** Every text matches itself as a pattern, wildcards included. *)
Lemma pattern_compare_itself q p s :
  Sqlite.pattern_compare p s = true →
  Sqlite.pattern_compare (q ++ p) (q ++ s) = true.
Proof.
  intros H. induction q as [|c q IH]; simpl app; [done |].
  destruct (decide (c = Sqlite.percent)) as [-> | Hp].
  - apply (pattern_compare_skip _ [Sqlite.percent]). exact IH.
  - destruct (decide (c = Sqlite.underscore)) as [-> | Hu]; [exact IH |].
    rewrite pattern_compare_char by done. by rewrite N.eqb_refl, IH.
Qed.

Lemma like_contains q t :
  nul_free q → nul_free t → substring q t →
  Sqlite.like (Sqlite.Text t) (Sqlite.Text (utf8 "%" ++ q ++ utf8 "%")) = true.
Proof.
  intros Hq Ht (pre & post & ->). change (utf8 "%") with [Sqlite.percent]. simpl.
  rewrite !c_str_nonzero; [| done | by apply Forall_app; split; [| repeat constructor]].
  apply pattern_compare_skip, pattern_compare_itself, pattern_compare_anything.
Qed.

Lemma where_name_searched kw j v :
  v ∈ searched_values j → Sqlite.like v (Sqlite.Text kw) = true →
  WHERE_name kw j = true.
Proof.
  unfold searched_values, WHERE_name. intros Hv Hlike.
  repeat (apply elem_of_cons in Hv as [-> | Hv]);
    [.. | by apply elem_of_nil in Hv]; rewrite Hlike;
    rewrite ?orb_true_r; reflexivity.
Qed.

Context {A : Type} (key : A -> Sqlite.value).

(** What [LIMIT] cuts off an ordered list comes after all it keeps. *)
Lemma limit_keeps_smallest n rows x :
  0 ≤ n → x ∈ rows →
  x ∈ Sqlite.limit n (Sqlite.order_by key rows)
  ∨ Z.of_nat (length (Sqlite.limit n (Sqlite.order_by key rows))) = n
    ∧ Forall (fun y => Sqlite.le_by key y x)
             (Sqlite.limit n (Sqlite.order_by key rows)).
Proof.
  intros Hn Hx. unfold Sqlite.limit. destruct (Z.ltb_spec n 0); [lia |].
  pose proof (order_by_sorted key rows) as Hs.
  assert (x ∈ Sqlite.order_by key rows) as Hx'.
  { unfold Sqlite.order_by. by rewrite merge_sort_Permutation. }
  rewrite <- (take_drop (Z.to_nat n) (Sqlite.order_by key rows)) in Hs, Hx'.
  apply elem_of_app in Hx' as [Hx' | Hx']; [by left | right]. split.
  - rewrite length_take.
    destruct (decide (length (Sqlite.order_by key rows) ≤ Z.to_nat n)%nat) as [Hl|Hl].
    + rewrite drop_ge in Hx' by done. by apply elem_of_nil in Hx'.
    + lia.
  - apply Forall_forall. intros y Hy.
    eapply StronglySorted_app_1_elem_of; eauto.
Qed.

Lemma limit_order_length n rows :
  0 ≤ n →
  Z.of_nat (length (Sqlite.limit n (Sqlite.order_by key rows)))
  = Z.min n (Z.of_nat (length rows)).
Proof.
  intros Hn. unfold Sqlite.limit, Sqlite.order_by.
  destruct (Z.ltb_spec n 0); [lia |].
  rewrite length_take, merge_sort_Permutation. lia.
Qed.

Lemma limit_prefix n m (rows : list A) :
  0 ≤ n ≤ m → Sqlite.limit n rows `prefix_of` Sqlite.limit m rows.
Proof.
  intros Hnm. unfold Sqlite.limit.
  destruct (Z.ltb_spec n 0), (Z.ltb_spec m 0); try lia.
  exists (drop (Z.to_nat n) (take (Z.to_nat m) rows)).
  rewrite <- (take_drop (Z.to_nat n) (take (Z.to_nat m) rows)) at 1.
  f_equal. rewrite take_take. f_equal. lia.
Qed.

End SearchRows.

Section SearchOutcome.

Variables (d : direction) (request : request) (w : world) (db : database).
Variable limit : Z.
Hypothesis Hdb : DB_FILE w = Some db.
Hypothesis Hq : 2 ≤ Py.len (keyword_of request).
Hypothesis Hl : limit_of request = Some limit.
Hypothesis Hok : search_raises d (pattern_of request) w = false.

Lemma execute_name_matching kw n :
  execute db (SQL_NAME d kw n)
  = SELECT (select_list d) (Sqlite.limit n (ORDER_BY_tonban (matching d db kw))).
Proof. by destruct d. Qed.

Lemma by_name_rows_eq :
  rows_of (by_name d request w).1
  = SELECT (select_list d)
      (Sqlite.limit limit
         (ORDER_BY_tonban
            (matching d db (utf8 "%" ++ keyword_of request ++ utf8 "%")))).
Proof.
  rewrite (by_name_run _ _ _ limit), search_run, (query_db _ db) by done.
  cbn [fst]. by rewrite rows_of_success, execute_name_matching.
Qed.

Lemma limit_of_range : 1 ≤ limit ≤ 1000.
Proof.
  unfold limit_of in Hl. destruct (Py.int _); simplify_eq/=. apply clamp_range.
Qed.

Lemma by_name_rows_length :
  Z.of_nat (length (rows_of (by_name d request w).1))
  = Z.min limit
      (Z.of_nat (length (matching d db
                           (utf8 "%" ++ keyword_of request ++ utf8 "%")))).
Proof.
  rewrite by_name_rows_eq. pose proof limit_of_range.
  unfold SELECT, ORDER_BY_tonban. rewrite length_fmap.
  apply limit_order_length. lia.
Qed.

End SearchOutcome.

(** X5: a search whose pattern SQLite accepts, being of 50,000 bytes at
    most, has no false negative. An entry of the dataset, joined with its
    ancestors, that holds the keyword as a substring of one of the five
    columns (keyword and column free of U+0000) is among the rows returned,
    unless the limit is reached by rows whose leaf codes all come no later
    than its own. *)
Theorem search_returns_literal_matches
    (d : direction) (request : request) (w : world) (db : database)
    (limit : Z) (j : joined) (t : list N) :
  DB_FILE w = Some db →
  2 ≤ Py.len (keyword_of request) →
  limit_of request = Some limit →
  Sqlite.too_complex (pattern_of request) = false →
  j ∈ FROM_JOIN (entries_of d db) db →
  Sqlite.Text t ∈ searched_values j →
  nul_free (keyword_of request) → nul_free t →
  substring (keyword_of request) t →
  let rows := rows_of (by_name d request w).1 in
  to_dict (select_list d) j ∈ rows
  ∨ Z.of_nat (length rows) = limit
    ∧ Forall (fun row => Sqlite.value_le (leaf_code row) (tonban (te j)) = true)
             rows.
Proof.
  intros Hdb Hq Hl Hok Hj Ht Hnq Hnt Hsub rows. subst rows.
  rewrite (by_name_rows_eq d request w db limit)
    by (done || by apply search_raises_short).
  pose proof (limit_of_range request limit Hl) as Hrange.
  assert (j ∈ matching d db (utf8 "%" ++ keyword_of request ++ utf8 "%")) as Hm.
  { unfold matching. apply list_elem_of_In, filter_In. split.
    - by apply list_elem_of_In.
    - eapply where_name_searched; [exact Ht |]. by apply like_contains. }
  unfold SELECT, ORDER_BY_tonban.
  destruct (limit_keeps_smallest (fun j => tonban (te j)) limit _ j
              ltac:(lia) Hm) as [Hin | [Hlen Hall]].
  - left. by apply list_elem_of_fmap_2.
  - right. rewrite length_fmap. split; [done |].
    apply Forall_fmap. eapply Forall_impl; [exact Hall |].
    intros j' Hj'. simpl. by rewrite leaf_code_to_dict.
Qed.

Lemma search_returns_literal_matches_witness :
  let request := GET [("q", "純粋種"); ("limit", "1")] in
  let rows := rows_of (by_name Export request sample_world).1 in
  ∃ j,
    j ∈ FROM_JOIN (entries_of Export sample_db) sample_db
    ∧ Sqlite.Text (utf8 "純粋種の繁殖用のもの") ∈ searched_values j
    ∧ substring (keyword_of request) (utf8 "純粋種の繁殖用のもの")
    ∧ (to_dict (select_list Export) j ∈ rows
       ∨ Z.of_nat (length rows) = 1
         ∧ Forall (fun row =>
                     Sqlite.value_le (leaf_code row) (tonban (te j)) = true)
                  rows).
Proof.
  intros request rows.
  assert (∃ j, FROM_JOIN (entries_of Export sample_db) sample_db !! 1%nat = Some j
               ∧ gou_title (g j) = T "純粋種の繁殖用のもの") as (j & Hj & Hg).
  { eexists. split; vm_compute; reflexivity. }
  assert (j ∈ FROM_JOIN (entries_of Export sample_db) sample_db) as Hin.
  { by eapply list_elem_of_lookup_2. }
  assert (Sqlite.Text (utf8 "純粋種の繁殖用のもの") ∈ searched_values j) as Hv.
  { unfold searched_values. rewrite Hg. repeat constructor. }
  assert (substring (keyword_of request) (utf8 "純粋種の繁殖用のもの")) as Hsub.
  { apply contains_spec. vm_compute. reflexivity. }
  exists j. split_and!; [done | done | done |].
  apply (search_returns_literal_matches Export request sample_world sample_db 1
           j (utf8 "純粋種の繁殖用のもの"));
    [ reflexivity
    | vm_compute; discriminate
    | vm_compute; reflexivity
    | vm_compute; reflexivity
    | exact Hin
    | exact Hv
    | apply (bool_decide_unpack _); vm_compute; reflexivity
    | apply (bool_decide_unpack _); vm_compute; reflexivity
    | exact Hsub ].
Defined.

(** X6: on an existing dataset, a valid search whose pattern SQLite
    accepts returns as many rows as the join has rows matching the pattern,
    up to the bound limit and no more: the smaller of the two numbers. A
    search whose statement raises, its pattern being longer than 50,000
    bytes on a join that has a row, returns none. *)
Theorem search_row_count
    (d : direction) (request : request) (w : world) (db : database) (limit : Z) :
  DB_FILE w = Some db →
  2 ≤ Py.len (keyword_of request) →
  limit_of request = Some limit →
  Z.of_nat (length (rows_of (by_name d request w).1))
  = if search_raises d (pattern_of request) w
    then 0
    else Z.min limit
           (Z.of_nat (length (matching d db
                                (utf8 "%" ++ keyword_of request ++ utf8 "%")))).
Proof.
  intros Hdb Hq Hl.
  destruct (search_raises d (pattern_of request) w) eqn:Hr.
  - rewrite (by_name_run _ _ _ limit), search_cases by done.
    fold (pattern_of request). by rewrite Hr.
  - by apply by_name_rows_length.
Qed.

Lemma search_row_count_witness :
  let request := GET [("q", "動物"); ("limit", "1")] in
  length (matching Import sample_db (utf8 "%" ++ keyword_of request ++ utf8 "%"))
  = 2%nat
  ∧ Z.of_nat (length (rows_of (by_name Import request sample_world).1)) = 1.
Proof.
  intros request. split; [vm_compute; reflexivity |].
  rewrite (search_row_count Import request sample_world sample_db 1);
    [ vm_compute; reflexivity
    | reflexivity
    | vm_compute; discriminate
    | vm_compute; reflexivity ].
Defined.

(** The other branch: 50,000 [%] on the sample dataset return no row, where
    two [%] return both entries. *)
Example long_search_no_rows :
  let request := {| args := [("q", replicate (N.to_nat 50000) Sqlite.percent)] |} in
  search_raises Import (pattern_of request) sample_world = true
  ∧ rows_of (by_name Import request sample_world).1 = []
  ∧ length (rows_of (by_name Import (GET [("q", "%%")]) sample_world).1) = 2%nat.
Proof. split_and!; vm_compute; reflexivity. Qed.

(** X7: raising the limit only adds rows at the end. For the same keyword,
    the rows returned under a smaller limit are the first rows returned
    under a larger one. *)
Theorem search_limit_prefix
    (d : direction) (request1 request2 : request) (w : world) (n m : Z) :
  2 ≤ Py.len (keyword_of request1) →
  keyword_of request2 = keyword_of request1 →
  limit_of request1 = Some n →
  limit_of request2 = Some m →
  n ≤ m →
  rows_of (by_name d request1 w).1 `prefix_of` rows_of (by_name d request2 w).1.
Proof.
  intros Hq Hq2 Hn Hm Hnm.
  assert (pattern_of request2 = pattern_of request1) as Hp.
  { unfold pattern_of. by rewrite Hq2. }
  destruct (search_raises d (pattern_of request1) w) eqn:Hr.
  { rewrite (by_name_run _ _ _ n), (by_name_run _ _ _ m), !search_cases
      by (done || by rewrite Hq2).
    rewrite Hq2. fold (pattern_of request1). by rewrite Hr. }
  destruct (DB_FILE w) as [db|] eqn:Hdb.
  - rewrite (by_name_rows_eq d request1 w db n),
      (by_name_rows_eq d request2 w db m) by (done || by rewrite ?Hp, ?Hq2).
    rewrite Hq2. pose proof (limit_of_range request1 n Hn).
    destruct (limit_prefix n m
                (ORDER_BY_tonban
                   (matching d db (utf8 "%" ++ keyword_of request1 ++ utf8 "%"))))
      as [rest ->]; [lia |].
    exists (SELECT (select_list d) rest). unfold SELECT. apply fmap_app.
  - rewrite (by_name_run _ _ _ n), (by_name_run _ _ _ m), !search_run,
      !query_no_db by (done || by rewrite ?Hq2).
    done.
Qed.

Lemma search_limit_prefix_witness :
  let request1 := GET [("q", "動物"); ("limit", "1")] in
  let request2 := GET [("limit", "2"); ("q", " 動物")] in
  leaf_code <$> rows_of (by_name Export request2 sample_world).1
  = [T "0101.21-000"; T "0101.29-000"]
  ∧ rows_of (by_name Export request1 sample_world).1
    `prefix_of` rows_of (by_name Export request2 sample_world).1.
Proof.
  intros request1 request2. split; [vm_compute; reflexivity |].
  apply (search_limit_prefix Export request1 request2 sample_world 1 2);
    [ vm_compute; discriminate
    | vm_compute; reflexivity
    | vm_compute; reflexivity
    | vm_compute; reflexivity
    | lia ].
Defined.

(** ** Keyword search: ASCII case *)

Section AsciiCase.

Lemma tolower_idemp c : Sqlite.tolower (Sqlite.tolower c) = Sqlite.tolower c.
Proof.
  unfold Sqlite.tolower.
  destruct ((65 <=? c)%N && (c <=? 90)%N) eqn:H; [| by rewrite H].
  apply andb_true_iff in H as [H1%N.leb_le H2%N.leb_le].
  destruct (N.leb_spec 65 (c + 32)), (N.leb_spec (c + 32) 90); cbn [andb]; lia.
Qed.

Lemma tolower_wildcard c :
  (Sqlite.tolower c = Sqlite.percent ↔ c = Sqlite.percent)
  ∧ (Sqlite.tolower c = Sqlite.underscore ↔ c = Sqlite.underscore)
  ∧ (Sqlite.tolower c = 0%N ↔ c = 0%N).
Proof.
  unfold Sqlite.tolower, Sqlite.percent, Sqlite.underscore.
  destruct (N.leb_spec 65 c), (N.leb_spec c 90); cbn [andb]; lia.
Qed.

Lemma pattern_compare_percent_ext p1 p2 :
  (∀ s, Sqlite.pattern_compare p1 s = Sqlite.pattern_compare p2 s) →
  ∀ s, Sqlite.pattern_compare (Sqlite.percent :: p1) s
       = Sqlite.pattern_compare (Sqlite.percent :: p2) s.
Proof.
  intros H s. induction s as [|c s IH];
    rewrite (pattern_compare_percent p1), (pattern_compare_percent p2), H;
    [done | by rewrite IH].
Qed.

(** LIKE does not see the case of the ASCII letters of its pattern. *)
Lemma pattern_compare_tolower p s :
  Sqlite.pattern_compare (Sqlite.tolower <$> p) s = Sqlite.pattern_compare p s.
Proof.
  revert s. induction p as [|c p IH]; intros s; [done |]. rewrite fmap_cons.
  destruct (tolower_wildcard c) as (Hp & Hu & _).
  destruct (decide (c = Sqlite.percent)) as [-> | Hcp].
  - by apply pattern_compare_percent_ext.
  - destruct (decide (c = Sqlite.underscore)) as [-> | Hcu].
    + simpl. destruct s; [done | apply IH].
    + rewrite !pattern_compare_char by tauto.
      destruct s as [|e s]; [done |]. by rewrite tolower_idemp, IH.
Qed.

Lemma c_str_tolower p :
  Sqlite.c_str (Sqlite.tolower <$> p) = Sqlite.tolower <$> Sqlite.c_str p.
Proof.
  induction p as [|c p IH]; [done |]. rewrite fmap_cons; simpl.
  destruct (tolower_wildcard c) as (_ & _ & Hz).
  destruct (N.eqb_spec c 0) as [-> | Hc]; [done |].
  destruct (N.eqb_spec (Sqlite.tolower c) 0) as [Hc' | _]; [tauto |].
  by rewrite fmap_cons, IH.
Qed.

Lemma like_tolower x kw1 kw2 :
  Sqlite.tolower <$> kw1 = Sqlite.tolower <$> kw2 →
  Sqlite.like x (Sqlite.Text kw1) = Sqlite.like x (Sqlite.Text kw2).
Proof.
  intros H. destruct x as [|s]; [done |]. simpl.
  rewrite <- (pattern_compare_tolower (Sqlite.c_str kw1)),
    <- (pattern_compare_tolower (Sqlite.c_str kw2)), <- !c_str_tolower.
  by rewrite H.
Qed.

Lemma execute_name_tolower d db kw1 kw2 limit :
  Sqlite.tolower <$> kw1 = Sqlite.tolower <$> kw2 →
  execute db (SQL_NAME d kw1 limit) = execute db (SQL_NAME d kw2 limit).
Proof.
  intros H.
  assert (∀ entries, List.filter (WHERE_name kw1) (FROM_JOIN entries db)
                     = List.filter (WHERE_name kw2) (FROM_JOIN entries db)) as Hf.
  { intros entries. apply List.filter_ext. intros j. unfold WHERE_name.
    by rewrite !(like_tolower _ kw1 kw2). }
  destruct d; simpl; by rewrite Hf.
Qed.

Lemma utf8_bytes_tolower c : Sqlite.utf8_bytes (Sqlite.tolower c) = Sqlite.utf8_bytes c.
Proof.
  unfold Sqlite.tolower.
  destruct ((65 <=? c)%N && (c <=? 90)%N) eqn:H; [| done].
  apply andb_true_iff in H as [H1%N.leb_le H2%N.leb_le].
  unfold Sqlite.utf8_bytes.
  destruct (N.ltb_spec (c + 32) 128), (N.ltb_spec c 128); (done || lia).
Qed.

Lemma byte_length_tolower p :
  Sqlite.byte_length (Sqlite.tolower <$> p) = Sqlite.byte_length p.
Proof.
  induction p as [|c p IH]; [done |].
  rewrite fmap_cons. unfold Sqlite.byte_length in *. cbn [foldr].
  by rewrite IH, utf8_bytes_tolower.
Qed.

(** Two patterns that differ in ASCII case only are of the same length in
    bytes: SQLite refuses both or neither. *)
Lemma search_raises_tolower d kw1 kw2 w :
  Sqlite.tolower <$> kw1 = Sqlite.tolower <$> kw2 →
  search_raises d kw1 w = search_raises d kw2 w.
Proof.
  intros H. unfold search_raises, Sqlite.too_complex.
  by rewrite <- (byte_length_tolower kw1), <- (byte_length_tolower kw2), H.
Qed.

End AsciiCase.

(** X8: a search does not see the case of the ASCII letters of its
    keyword. Two requests whose trimmed keywords differ only there, with
    limits bound alike, get the same response. *)
Theorem search_ascii_case_insensitive
    (d : direction) (request1 request2 : request) (w : world) :
  Sqlite.tolower <$> keyword_of request1 = Sqlite.tolower <$> keyword_of request2 →
  limit_of request1 = limit_of request2 →
  (by_name d request1 w).1 = (by_name d request2 w).1.
Proof.
  intros Hk Hl.
  assert (Py.len (keyword_of request1) = Py.len (keyword_of request2)) as Hlen.
  { unfold Py.len. f_equal.
    by rewrite <- (length_fmap Sqlite.tolower (keyword_of request1)), Hk, length_fmap. }
  destruct (Z.lt_ge_cases (Py.len (keyword_of request1)) 2) as [Hq | Hq].
  - rewrite !by_name_short by lia. done.
  - destruct (limit_of request1) as [limit|] eqn:Hl1.
    + assert (Sqlite.tolower <$> (utf8 "%" ++ keyword_of request1 ++ utf8 "%")%list
              = Sqlite.tolower <$> (utf8 "%" ++ keyword_of request2 ++ utf8 "%")%list)
        as Hp by (rewrite !fmap_app; by rewrite Hk).
      rewrite !(by_name_run _ _ _ limit), !search_cases by (done || lia).
      rewrite (search_raises_tolower d _ _ w Hp).
      destruct (search_raises _ _ _); cbn [fst]; [done |].
      f_equal. destruct (DB_FILE w) as [db|] eqn:Hdb.
      * rewrite !(query_db _ db) by done. cbn [fst].
        by apply execute_name_tolower.
      * by rewrite !query_no_db.
    + rewrite !by_name_bad_limit by (done || lia). done.
Qed.

Lemma search_ascii_case_insensitive_witness :
  let db :=
    {| yushutsu_tonban :=
         [ {| tonban := T "0101.21-000"; hinmei := T "Live Horses";
              tani1 := Sqlite.Null; tani2 := T "NO"; tahourei := Sqlite.Null;
              kanzeiritsu := fun _ => Sqlite.Null |} ];
       yunyu_tonban := [];
       gou_table := gou_table sample_db; kou_table := kou_table sample_db;
       rui_table := rui_table sample_db; bu_table := bu_table sample_db |} in
  let w := {| DB_FILE := Some db; logged := []; executed := [] |} in
  let request1 := GET [("q", "HORSE")] in
  let request2 := GET [("q", "horse")] in
  Sqlite.tolower <$> keyword_of request1 = Sqlite.tolower <$> keyword_of request2
  ∧ length (rows_of (by_name Export request2 w).1) = 1%nat
  ∧ (by_name Export request1 w).1 = (by_name Export request2 w).1.
Proof.
  intros db w request1 request2.
  split; [vm_compute; reflexivity |]. split; [vm_compute; reflexivity |].
  apply (search_ascii_case_insensitive Export request1 request2 w);
    vm_compute; reflexivity.
Defined.

(** ** Surrounding white space *)

Section Whitespace.

Lemma lstrip_split s : ∃ pre : list N, s = (pre ++ Py.lstrip s)%list ∧ blank pre.
Proof.
  induction s as [|c s (pre & IH & Hpre)]; simpl.
  - exists []. split; [done | constructor].
  - destruct (Py.isspace c) eqn:Hc.
    + exists (c :: pre). split; [simpl; by f_equal | by constructor].
    + exists []. split; [done | constructor].
Qed.

Lemma lstrip_head c u s : Py.lstrip s = c :: u → Py.isspace c = false.
Proof.
  induction s as [|e s IH]; simpl; [done |].
  destruct (Py.isspace e) eqn:He; [done |]. by intros [= <- _].
Qed.

Lemma lstrip_unchanged c u : Py.isspace c = false → Py.lstrip (c :: u) = c :: u.
Proof. intros H. simpl. by rewrite H. Qed.

Lemma lstrip_idemp s : Py.lstrip (Py.lstrip s) = Py.lstrip s.
Proof.
  destruct (Py.lstrip s) as [|c u] eqn:H; [done |].
  apply lstrip_unchanged. by eapply lstrip_head.
Qed.

Lemma lstrip_app_blank pre s : blank pre → Py.lstrip (pre ++ s) = Py.lstrip s.
Proof. induction 1 as [|c pre Hc _ IH]; simpl; [done |]. by rewrite Hc. Qed.

Lemma rstrip_split s : ∃ post : list N, s = (Py.rstrip s ++ post)%list ∧ blank post.
Proof.
  destruct (lstrip_split (reverse s)) as (pre & H & Hpre).
  exists (reverse pre). split.
  - unfold Py.rstrip. by rewrite <- reverse_app, <- H, reverse_involutive.
  - unfold blank. by rewrite Forall_reverse.
Qed.

Lemma rstrip_idemp s : Py.rstrip (Py.rstrip s) = Py.rstrip s.
Proof. unfold Py.rstrip. by rewrite reverse_involutive, lstrip_idemp. Qed.

Lemma rstrip_app_blank s post : blank post → Py.rstrip (s ++ post) = Py.rstrip s.
Proof.
  intros H. unfold Py.rstrip. rewrite reverse_app, lstrip_app_blank; [done |].
  unfold blank. by rewrite Forall_reverse.
Qed.

(** The trimmed string sits in the original between two runs of white
    space, and neither starts nor ends with white space. *)
Lemma strip_split s :
  ∃ pre post : list N,
    s = (pre ++ Py.strip s ++ post)%list ∧ blank pre ∧ blank post.
Proof.
  destruct (lstrip_split s) as (pre & Hs & Hpre).
  destruct (rstrip_split (Py.lstrip s)) as (post & Ha & Hpost).
  exists pre, post. unfold Py.strip. by rewrite <- Ha.
Qed.

Lemma strip_head c u s : Py.strip s = c :: u → Py.isspace c = false.
Proof.
  intros H. destruct (rstrip_split (Py.lstrip s)) as (post & Ha & _).
  unfold Py.strip in H. rewrite H in Ha. by eapply lstrip_head.
Qed.

Lemma strip_padded pre post s :
  blank pre → blank post →
  Py.strip (pre ++ Py.strip s ++ post)%list = Py.strip s.
Proof.
  intros Hpre Hpost. unfold Py.strip at 1. rewrite lstrip_app_blank by done.
  destruct (Py.strip s) as [|c u] eqn:Hu.
  - simpl. apply lstrip_nil_iff in Hpost. rewrite Hpost. reflexivity.
  - simpl app. rewrite lstrip_unchanged by (by eapply strip_head).
    rewrite app_comm_cons, rstrip_app_blank by done.
    rewrite <- Hu. unfold Py.strip. apply rstrip_idemp.
Qed.

Variables (d : direction) (request1 request2 : request) (w : world).

Lemma by_code_same_code :
  code_of request2 = code_of request1 →
  by_code d request2 w = by_code d request1 w.
Proof.
  intros H. destruct (decide (code_of request1 = [])) as [Hc | Hc].
  - rewrite !by_code_blank by congruence. done.
  - rewrite !by_code_run by congruence. by rewrite H.
Qed.

Lemma by_name_same_keyword :
  keyword_of request2 = keyword_of request1 →
  limit_of request2 = limit_of request1 →
  by_name d request2 w = by_name d request1 w.
Proof.
  intros H Hl. destruct (Z.lt_ge_cases (Py.len (keyword_of request1)) 2) as [Hq | Hq].
  - rewrite !by_name_short by (by rewrite ?H). done.
  - destruct (limit_of request1) as [limit|] eqn:Hl1.
    + rewrite !(by_name_run _ _ _ limit) by (by rewrite ?H). by rewrite H.
    + rewrite !by_name_bad_limit by (by rewrite ?H). done.
Qed.

End Whitespace.

(** X9: white space around the [code] or the [q] parameter changes
    nothing. A request whose parameter is the trimmed parameter of another
    between two runs of white space (ASCII or not) gets the same response
    and has the same effects. *)
Theorem surrounding_whitespace_ignored
    (d : direction) (request1 request2 : request) (w : world)
    (pre post : list N) :
  blank pre → blank post →
  (args_get "code" request2 = Some (pre ++ code_of request1 ++ post)%list →
   by_code d request2 w = by_code d request1 w)
  ∧ (args_get "q" request2 = Some (pre ++ keyword_of request1 ++ post)%list →
     limit_of request2 = limit_of request1 →
     by_name d request2 w = by_name d request1 w).
Proof.
  intros Hpre Hpost. split.
  - intros H. apply by_code_same_code. unfold code_of at 1. rewrite H; simpl.
    by apply strip_padded.
  - intros H Hl. apply by_name_same_keyword; [| done].
    unfold keyword_of at 1. rewrite H; simpl. by apply strip_padded.
Qed.

Lemma surrounding_whitespace_ignored_witness :
  let request1 := GET [("q", "動物"); ("limit", "1")] in
  let request2 := GET [("q", "　 動物  "); ("limit", "1")] in
  blank (utf8 "　 ") ∧ blank (utf8 "  ")
  ∧ length (rows_of (by_name Export request1 sample_world).1) = 1%nat
  ∧ by_name Export request2 sample_world = by_name Export request1 sample_world.
Proof.
  intros request1 request2.
  assert (blank (utf8 "　 ")) as Hpre by (vm_compute; repeat constructor).
  assert (blank (utf8 "  ")) as Hpost by (vm_compute; repeat constructor).
  split; [exact Hpre |]. split; [exact Hpost |].
  split; [vm_compute; reflexivity |].
  destruct (surrounding_whitespace_ignored Export request1 request2 sample_world
              (utf8 "　 ") (utf8 "  ") Hpre Hpost) as [_ Hname].
  apply Hname; vm_compute; reflexivity.
Defined.

(** ** What a request does to the world *)

Section Effects.

Variables (d : direction) (request : request) (w : world).

Lemma unchanged_modest resp : modest w (resp, w).
Proof.
  unfold modest; simpl. split_and!; [done | | | done].
  - exists []. rewrite app_nil_r. split_and!; [done | simpl; lia | done].
  - exists []. rewrite app_nil_r.
    split_and!; [done | simpl; lia | constructor | done].
Qed.

Lemma query_modest sql resp :
  status resp ≠ 400 → modest w (resp, (_query sql w).2).
Proof.
  intros Hst. unfold modest. destruct (DB_FILE w) as [db|] eqn:Hdb.
  - rewrite (query_db _ db) by done; simpl. split_and!; [done | | | by intros ?].
    + exists [sql]. split_and!; [done | simpl; lia | done].
    + exists []. rewrite app_nil_r. split_and!; [done | simpl; lia | constructor | done].
  - rewrite query_no_db by done; simpl. split_and!; [done | | | by intros ?].
    + exists []. rewrite app_nil_r. split_and!; [done | simpl; lia | done].
    + eexists [_]. split_and!; [done | simpl; lia | by repeat constructor |].
      by intros [? ?].
Qed.

Lemma raised_modest sql :
  is_Some (DB_FILE w) →
  modest w (InternalServerError,
            {| DB_FILE := DB_FILE w; logged := logged w;
               executed := executed w ++ [sql] |}).
Proof.
  intros [db Hdb]. unfold modest; simpl. split_and!; [done | | | by intros ?].
  - exists [sql]. split_and!; [done | simpl; lia | by rewrite Hdb].
  - exists []. rewrite app_nil_r. split_and!; [done | simpl; lia | constructor |].
    by rewrite Hdb.
Qed.

Lemma by_code_modest : modest w (by_code d request w).
Proof.
  destruct (decide (code_of request = [])) as [Hc | Hc].
  - rewrite by_code_blank by done. apply unchanged_modest.
  - rewrite by_code_run by done; cbv zeta.
    apply query_modest. by case_bool_decide.
Qed.

Lemma by_name_modest : modest w (by_name d request w).
Proof.
  destruct (Z.lt_ge_cases (Py.len (keyword_of request)) 2) as [Hq | Hq].
  - rewrite by_name_short by done. apply unchanged_modest.
  - destruct (limit_of request) as [limit|] eqn:Hl.
    + rewrite (by_name_run _ _ _ limit), search_cases by done.
      destruct (search_raises _ _ _) eqn:Hr; [| by apply query_modest].
      apply raised_modest. unfold search_raises in Hr.
      by destruct (DB_FILE w).
    + rewrite by_name_bad_limit by done. apply unchanged_modest.
Qed.

End Effects.

(** X10: whatever the request, a route leaves the dataset as it is, executes
    at most one statement and none when the dataset is missing, logs at most
    one record, an ERROR and only when the dataset is missing, and changes
    nothing at all when it answers 400. *)
Theorem routes_modest :
  Forall (fun route : string * (request -> M response) =>
            ∀ request w, modest w (route.2 request w))
         url_map.
Proof.
  rewrite url_map_directions.
  repeat (constructor;
          [intros request w; first [apply by_code_modest | apply by_name_modest] |]).
  constructor.
Qed.

(** ** Index creation *)

Section Indexes.



Lemma foldl_world sqls st :
  the_world (foldl conn_execute_index st sqls) = the_world st
  ∧ index_executed (foldl conn_execute_index st sqls)
    = (index_executed st ++ sqls)%list.
Proof.
  revert st. induction sqls as [|s sqls IH]; intros st; simpl.
  - by rewrite app_nil_r.
  - destruct (IH (conn_execute_index st s)) as [-> ->]; simpl.
    by rewrite <- app_assoc.
Qed.

Lemma log_record_indexes level msg st :
  indexes (log_record level msg st) = indexes st
  ∧ index_executed (log_record level msg st) = index_executed st
  ∧ DB_FILE (the_world (log_record level msg st)) = DB_FILE (the_world st)
  ∧ logged (the_world (log_record level msg st))
    = (logged (the_world st) ++ [(level, msg)])%list.
Proof. done. Qed.



End Indexes.




(** ** Entry point *)

(** X13: the entry point first creates the indexes, then reads the port:
    10010 without a PORT variable, otherwise whatever [int] reads from it,
    with no check of its range; when [int] raises, the indexes are created
    all the same. The record that index creation is complete is logged in
    every case, also when the dataset is missing and creation was skipped. *)
Theorem main_port_and_log (environ : gmap string (list N)) (st : startup) :
  let result := main environ st in
  result.1 = match environ !! "PORT" with
             | None => Some 10010
             | Some s => Py.int_of_str s
             end
  ∧ indexes result.2 = indexes (create_indexes st)
  ∧ index_executed result.2 = index_executed (create_indexes st)
  ∧ ∃ before after,
      logged (the_world result.2)
      = (logged (the_world st) ++ before
         ++ [("INFO", utf8 "インデックス作成完了")] ++ after)%list
      ∧ before = match DB_FILE (the_world st) with
                 | Some _ => [("INFO", utf8 "インデックス作成完了")]
                 | None =>
                     [("WARNING",
                       utf8 "DB ファイル 統番.db が見つかりません。インデックス作成をスキップ")]
                 end
      ∧ (length after ≤ 1)%nat
      ∧ (after = [] ↔ result.1 = None).
Proof.
  intros result. subst result. unfold main.
  assert (∃ before,
            logged (the_world (create_indexes st))
            = (logged (the_world st) ++ before)%list
            ∧ before = match DB_FILE (the_world st) with
                       | Some _ => [("INFO", utf8 "インデックス作成完了")]
                       | None =>
                           [("WARNING",
                             utf8 "DB ファイル 統番.db が見つかりません。インデックス作成をスキップ")]
                       end) as (before & Hlog & Hbefore).
  { unfold create_indexes.
    destruct (DB_FILE (the_world st)); cbv zeta;
      rewrite (proj2 (proj2 (proj2 (log_record_indexes _ _ _)))); [| eauto].
    destruct (foldl_world idx_sqls st) as [-> _]. eauto. }
  assert (Py.int (default (Py.Int 10010) (Py.Str <$> environ !! "PORT"))
          = match environ !! "PORT" with
            | None => Some 10010
            | Some s => Py.int_of_str s
            end) as Hport by (by destruct (environ !! "PORT")).
  rewrite Hport. clear Hport.
  destruct (match environ !! "PORT" with
            | None => Some 10010
            | Some s => Py.int_of_str s
            end) as [port|]; cbn [fst snd].
  - split_and!; [done | done | done |].
    exists before, [("INFO", (utf8 "Tonban API サーバー起動: http://0.0.0.0:"
                              ++ str_of_int port)%list)].
    rewrite !(proj2 (proj2 (proj2 (log_record_indexes _ _ _)))), Hlog, <- !app_assoc.
    split_and!; [done | done | simpl; lia | done].
  - split_and!; [done | done | done |].
    exists before, [].
    rewrite !(proj2 (proj2 (proj2 (log_record_indexes _ _ _)))), Hlog, <- !app_assoc.
    split_and!; [done | done | simpl; lia | done].
Qed.

Example main_examples :
  (main ∅ no_db_startup).1 = Some 10010
  ∧ (main {[ "PORT" := utf8 " 8080 " ]} sample_startup).1 = Some 8080
  ∧ (main {[ "PORT" := utf8 "-1" ]} sample_startup).1 = Some (-1)
  ∧ (main {[ "PORT" := utf8 "http" ]} sample_startup).1 = None
  ∧ dom (indexes (main {[ "PORT" := utf8 "http" ]} sample_startup).2)
    = list_to_set (index_name <$> idx_sqls)
  ∧ (logged (the_world (main {[ "PORT" := utf8 "80" ]} sample_startup).2)).*2
    = [ utf8 "インデックス作成完了"; utf8 "インデックス作成完了";
        utf8 "Tonban API サーバー起動: http://0.0.0.0:80" ].
Proof. split_and!; vm_compute; reflexivity. Qed.

(** ** A keyword of wildcards *)

Section Wildcards.

Lemma pattern_compare_percents p s :
  p ≠ [] → Forall (fun c => c = Sqlite.percent) p →
  Sqlite.pattern_compare p s = true.
Proof.
  intros Hp Hall. induction Hall as [|c p -> Hall IH]; [done |].
  destruct p as [|c' p].
  - apply pattern_compare_anything.
  - apply (pattern_compare_skip _ []). by apply IH.
Qed.

Lemma like_percents kw v :
  kw ≠ [] → Forall (fun c => c = Sqlite.percent) kw →
  Sqlite.like v (Sqlite.Text kw)
  = match v with Sqlite.Text _ => true | Sqlite.Null => false end.
Proof.
  intros Hkw Hall. destruct v as [|t]; [done |]. simpl.
  rewrite c_str_nonzero.
  - by apply pattern_compare_percents.
  - eapply Forall_impl; [exact Hall |]. by intros c ->.
Qed.

Lemma where_name_percents kw j :
  kw ≠ [] → Forall (fun c => c = Sqlite.percent) kw →
  WHERE_name kw j = has_text j.
Proof.
  intros Hkw Hall. unfold WHERE_name, has_text, searched_values; simpl.
  rewrite !like_percents by done. by rewrite orb_false_r, !orb_assoc.
Qed.

Lemma byte_length_percents kw :
  Forall (fun c => c = Sqlite.percent) kw →
  Sqlite.byte_length kw = N.of_nat (length kw).
Proof.
  induction 1 as [|c kw -> _ IH]; [done |].
  unfold Sqlite.byte_length in *. cbn [foldr length]. rewrite IH.
  change (Sqlite.utf8_bytes Sqlite.percent) with 1%N. lia.
Qed.

End Wildcards.

(** X14: the length check on the keyword does not keep a search narrow. A
    keyword of two [%] or more, up to the 49,998 that make a pattern of
    50,000 bytes, and nothing else selects every entry of the dataset,
    joined with its ancestors, that has a text in one of the five columns:
    the search returns the first of them in order of leaf code, as many as
    the limit allows. *)
Theorem wildcard_keyword_selects_all
    (d : direction) (request : request) (w : world) (db : database) (limit : Z) :
  DB_FILE w = Some db →
  2 ≤ Py.len (keyword_of request) ≤ 49998 →
  Forall (fun c => c = Sqlite.percent) (keyword_of request) →
  limit_of request = Some limit →
  let candidates := List.filter has_text (FROM_JOIN (entries_of d db) db) in
  rows_of (by_name d request w).1
  = SELECT (select_list d) (Sqlite.limit limit (ORDER_BY_tonban candidates))
  ∧ Z.of_nat (length (rows_of (by_name d request w).1))
    = Z.min limit (Z.of_nat (length candidates)).
Proof.
  intros Hdb [Hq Hlong] Hall Hl candidates.
  assert (search_raises d (pattern_of request) w = false) as Hok.
  { apply search_raises_short. unfold Sqlite.too_complex, pattern_of.
    apply N.ltb_ge. rewrite byte_length_percents.
    - unfold Py.len in Hlong. rewrite !length_app. simpl.
      unfold Sqlite.max_like_pattern_length. lia.
    - constructor; [done |]. apply Forall_app. split; [done | by repeat constructor]. }
  assert (matching d db (utf8 "%" ++ keyword_of request ++ utf8 "%") = candidates)
    as Hm.
  { unfold matching. apply List.filter_ext. intros j.
    apply where_name_percents; [done |].
    constructor; [done |]. apply Forall_app. split; [done | by repeat constructor]. }
  split.
  - by rewrite (by_name_rows_eq d request w db limit), Hm.
  - by rewrite (by_name_rows_length d request w db limit), Hm.
Qed.

Lemma wildcard_keyword_selects_all_witness :
  let request := GET [("q", "%%"); ("limit", "1000")] in
  2 ≤ Py.len (keyword_of request)
  ∧ length (FROM_JOIN (entries_of Import sample_db) sample_db) = 2%nat
  ∧ Z.of_nat (length (rows_of (by_name Import request sample_world).1)) = 2.
Proof.
  intros request.
  assert (2 ≤ Py.len (keyword_of request) ≤ 49998) as Hq.
  { split; vm_compute; discriminate. }
  split; [apply Hq |]. split; [vm_compute; reflexivity |].
  destruct (wildcard_keyword_selects_all Import request sample_world sample_db 1000)
    as [_ Hcount];
    [ reflexivity | exact Hq | vm_compute; repeat constructor
    | vm_compute; reflexivity |].
  rewrite Hcount. vm_compute. reflexivity.
Defined.
